(** * PyTorchMemTracer: the asynchronous memory monitor and its op hook

    Shallow embedding of [pytorchmemtracer/ophooks/_memtracer_ophook.py]:
    the class [AsyncMemoryMonitor] (a flag, a one-worker thread pool, a
    future and two parallel lists) and the class [MemTracerOpHook] that
    drives it from the phase boundaries of a training loop.

    Numbers.  Memory readings are Python ints ([torch.cuda.memory_allocated]),
    modelled as [Z].  [time()] readings are modelled as exact numbers in [Z]
    too (a clock counted in ticks); rounding of floats is not modelled.

    Threads.  The monitor owns [ThreadPoolExecutor(max_workers=1)].  The pool
    is modelled as the list of submitted tasks in submission order together
    with a step function for its only worker thread, which always runs the
    oldest task that has not returned yet.  The caller's thread is the one
    that runs [start], [finish] and the hook methods. *)

From Stdlib Require Import String ZArith List Bool Arith Lia.
Import ListNotations.
Local Open Scope Z_scope.

(** ** Python builtins *)

(** [min(l)] on a list of numbers; [None] stands for the [ValueError] that
    Python raises on an empty sequence. *)
Fixpoint py_min (l : list Z) : option Z :=
  match l with
  | [] => None
  | x :: l' =>
      match py_min l' with
      | None => Some x
      | Some m => Some (Z.min x m)
      end
  end.

(** The exceptions the modelled code can raise. *)
Inductive exn : Type :=
| AttributeError   (* [None.result()] *)
| ValueError.      (* [min([])] *)

(** ** The sampling task, [_measure_usage]

    The control points of one submitted call of [_measure_usage]:
<<
    max_usage = 0                                   Queued
    dev = torch.device(...)
    while self.keep_measuring:                      AtLoop max_usage
        max_usage = max(max_usage,                  InBody max_usage
                        get_sys_memory_used(dev))
        sleep(self.interval)
    return max_usage                                Done max_usage
>> *)
Inductive task : Type :=
| Queued
| AtLoop (max_usage : Z)
| InBody (max_usage : Z)
| Done (max_usage : Z).

Definition is_done (t : task) : bool :=
  match t with Done _ => true | _ => false end.

(** The local [max_usage] of a task; a task that has not begun has read
    nothing, and will start from 0. *)
Definition task_max (t : task) : Z :=
  match t with
  | Queued => 0
  | AtLoop m | InBody m | Done m => m
  end.

(** One step of the oldest unfinished task: [flag] is the value of
    [self.keep_measuring] read at the loop test, [sample] is what
    [get_sys_memory_used] returns if this step calls it.  The boolean says
    whether the step called it. *)
Fixpoint worker (flag : bool) (sample : Z) (q : list task) : list task * bool :=
  match q with
  | [] => ([], false)
  | Done r :: q' =>
      let (q'', used) := worker flag sample q' in (Done r :: q'', used)
  | Queued :: q' => (AtLoop 0 :: q', false)
  | AtLoop m :: q' => ((if flag then InBody m else Done m) :: q', false)
  | InBody m :: q' => (AtLoop (Z.max m sample) :: q', true)
  end.

(** The loop of [_measure_usage] run on the samples it reads, in order. *)
Definition measure_usage (samples : list Z) : Z :=
  fold_left Z.max samples 0.

(** ** [AsyncMemoryMonitor] *)

Record monitor : Type := Monitor {
  keep_measuring : bool;
  executor : list task;            (* the pool's tasks, oldest first *)
  monitor_thread : option nat;     (* the future: an index into [executor] *)
  interval : Z;                    (* kept as [power]; the period is 1 / 10 ** power *)
  time_stamps : list Z;
  mem_stats : list Z;
  samples_taken : nat              (* calls of [get_sys_memory_used] so far *)
}.

Definition set_keep_measuring (b : bool) (st : monitor) : monitor :=
  Monitor b (executor st) (monitor_thread st) (interval st)
          (time_stamps st) (mem_stats st) (samples_taken st).

Definition set_monitor_thread (f : option nat) (st : monitor) : monitor :=
  Monitor (keep_measuring st) (executor st) f (interval st)
          (time_stamps st) (mem_stats st) (samples_taken st).

Definition set_time_stamps (l : list Z) (st : monitor) : monitor :=
  Monitor (keep_measuring st) (executor st) (monitor_thread st) (interval st)
          l (mem_stats st) (samples_taken st).

Definition set_mem_stats (l : list Z) (st : monitor) : monitor :=
  Monitor (keep_measuring st) (executor st) (monitor_thread st) (interval st)
          (time_stamps st) l (samples_taken st).

(** [self.executor.submit(self._measure_usage)]: the task joins the queue
    and the future returned is its position. *)
Definition submit (st : monitor) : nat * monitor :=
  (length (executor st),
   Monitor (keep_measuring st) (executor st ++ [Queued]) (monitor_thread st)
           (interval st) (time_stamps st) (mem_stats st) (samples_taken st)).

(** What a call leaves behind: a value and a state, an exception and the
    state at the point it was raised, or a caller still blocked when the
    fuel ran out. *)
Inductive outcome (A : Type) : Type :=
| Ret (a : A) (st : monitor)
| Raise (e : exn) (st : monitor)
| Blocked.
Arguments Ret {A} a st.
Arguments Raise {A} e st.
Arguments Blocked {A}.

Definition M (A : Type) : Type := monitor -> outcome A.

Definition ret {A : Type} (a : A) : M A := fun st => Ret a st.

Definition bind {A B : Type} (m : M A) (f : A -> M B) : M B :=
  fun st =>
    match m st with
    | Ret a st' => f a st'
    | Raise e st' => Raise e st'
    | Blocked => Blocked
    end.

Notation "x <- m ;; k" := (bind m (fun x => k))
  (at level 61, m at next level, right associativity).
Notation "m ;;; k" := (bind m (fun _ => k))
  (at level 61, right associativity).

(** The state a call leaves, when it leaves one. *)
Definition state_after {A : Type} (o : outcome A) : option monitor :=
  match o with
  | Ret _ st | Raise _ st => Some st
  | Blocked => None
  end.

(** The provider of the end-to-end scenario: 10, 50, 30, 70 on the first
    four calls (and 0 afterwards). *)
Definition scenario_provider (n : nat) : Z := nth n [10; 50; 30; 70] 0.

(** ** Counting over the pool *)

(** The tasks of the pool that have not returned. *)
Definition unfinished (q : list task) : nat :=
  length (filter (fun t => negb (is_done t)) q).

(** The readings the oldest unfinished task still takes once the flag is
    down: one if it is past the loop test, none otherwise. *)
Fixpoint reads_left (q : list task) : nat :=
  match q with
  | [] => 0
  | Done _ :: q' => reads_left q'
  | InBody _ :: _ => 1
  | _ :: _ => 0
  end.

(** The pool after a second [start] on a measuring monitor: behind the
    tasks [q0] that have returned, the task [a] of the first [start] and
    the task [b] of the second.  [b] is not begun before [a] has returned,
    which takes the flag down, and then [b] returns 0 without a reading. *)
Definition stale_pair (flag : bool) (q0 q : list task) : Prop :=
  exists a b,
    q = q0 ++ [a; b] /\
    ((is_done a = false /\ b = Queued) \/
     (flag = false /\ is_done a = true /\
      (b = Queued \/ b = AtLoop 0 \/ b = Done 0))).

(** No task holds, and no entry of [mem_stats] is, a negative number. *)
Definition nonneg (st : monitor) : Prop :=
  Forall (fun t => 0 <= task_max t) (executor st) /\
  Forall (fun u => 0 <= u) (mem_stats st).

(** ** The memory statistics of the host, [get_memory_info]

    The file [/sys/fs/cgroup/memory/memory.meminfo] is given as it is read:
    [None] when [open] raises [FileNotFoundError], otherwise its lines,
    each as the list of fields [line.split()] returns.  [int] is Python's
    conversion of a field, [None] for its [ValueError].  [psutil]'s answer
    is the record [svmem].  The name [ps_mem_info] is neither defined nor
    imported in the module, so both calls of it raise [NameError] and no
    result is ever built: the type [mem_info] of results has no value. *)
Module MemInfo.

Inductive provider_exn : Type :=
| IndexError                 (* [fields[1]] on a line of fewer than two fields *)
| ValueError                 (* [int(fields[1])] *)
| KeyError (key : string)    (* [mems[key]] *)
| NameError.                 (* [ps_mem_info(...)] *)

Inductive mem_info : Type := .

(** [psutil.virtual_memory()] *)
Record svmem : Type := Svmem {
  vm_total : Z;
  vm_free : Z;
  vm_cached : Z;
  vm_buffers : Z;
  vm_used : Z
}.

(** The dict [mems]: keys in insertion order, one entry per key. *)
Definition dict : Type := list (string * Z).

Fixpoint getitem (key : string) (d : dict) : option Z :=
  match d with
  | [] => None
  | (k, v) :: d' => if String.eqb key k then Some v else getitem key d'
  end.

Fixpoint setitem (key : string) (v : Z) (d : dict) : dict :=
  match d with
  | [] => [(key, v)]
  | (k, w) :: d' =>
      if String.eqb key k then (k, v) :: d' else (k, w) :: setitem key v d'
  end.

Section Reading.

Variable int : string -> option Z.

(** [mems[fields[0]] = int(fields[1]) * 1024]; the right-hand side is
    evaluated first. *)
Definition read_line (mems : dict) (fields : list string)
  : provider_exn + dict :=
  match fields with
  | f0 :: f1 :: _ =>
      match int f1 with
      | None => inl ValueError
      | Some n => inr (setitem f0 (n * 1024) mems)
      end
  | _ => inl IndexError
  end.

Fixpoint read_lines (mems : dict) (lines : list (list string))
  : provider_exn + dict :=
  match lines with
  | [] => inr mems
  | fields :: rest =>
      match read_line mems fields with
      | inl e => inl e
      | inr mems' => read_lines mems' rest
      end
  end.

(** The four keys are in the dict. *)
Definition complete (mems : dict) : Prop :=
  getitem "MemTotal:" mems <> None /\
  getitem "MemFree:" mems <> None /\
  getitem "Cached:" mems <> None /\
  getitem "Buffers:" mems <> None.

Definition lookup (key : string) (mems : dict) : provider_exn + Z :=
  match getitem key mems with
  | None => inl (KeyError key)
  | Some v => inr v
  end.

Definition get_memory_info (meminfo : option (list (list string)))
                           (vm : svmem) : provider_exn + mem_info :=
  match meminfo with
  | Some lines =>
      match read_lines [] lines with
      | inl e => inl e
      | inr mems =>
          match lookup "MemTotal:" mems with
          | inl e => inl e
          | inr total =>
          match lookup "MemFree:" mems with
          | inl e => inl e
          | inr free =>
          match lookup "Cached:" mems with
          | inl e => inl e
          | inr cached =>
          match lookup "Buffers:" mems with
          | inl e => inl e
          | inr buffers =>
              let used := total - free - cached - buffers in
              let used := if used <? 0 then total - free else used in
              inl NameError
          end end end end
      end
  | None => inl NameError
  end.

End Reading.

(** For the runs: a reader of plain decimal numerals, on which [int]
    agrees with it. *)
Fixpoint decimal_from (acc : Z) (s : string) : option Z :=
  match s with
  | EmptyString => Some acc
  | String c s' =>
      let n := Z.of_nat (Ascii.nat_of_ascii c) in
      if (48 <=? n) && (n <=? 57) then decimal_from (acc * 10 + (n - 48)) s'
      else None
  end.

Definition decimal (s : string) : option Z :=
  match s with
  | EmptyString => None
  | _ => decimal_from 0 s
  end.

End MemInfo.

Section Tracer.

(** The usage provider: [get_sys_memory_used n] is the reading returned by
    the [n]-th call of [get_sys_memory_used(dev)] since the monitor was
    created.  ([_measure_usage] always passes a cuda device, so the reading
    is [torch.cuda.memory_allocated()].) *)
Variable get_sys_memory_used : nat -> Z.

(** The readings number [c], [c+1], ..., [c+k-1]. *)
Definition readings (c k : nat) : list Z :=
  map get_sys_memory_used (seq c k).

(** One step of the pool's worker thread. *)
Definition worker_step (st : monitor) : monitor :=
  let (q, used) := worker (keep_measuring st)
                          (get_sys_memory_used (samples_taken st))
                          (executor st) in
  Monitor (keep_measuring st) q (monitor_thread st) (interval st)
          (time_stamps st) (mem_stats st)
          (if used then S (samples_taken st) else samples_taken st).

Fixpoint run_worker (n : nat) (st : monitor) : monitor :=
  match n with
  | O => st
  | S n' => run_worker n' (worker_step st)
  end.

(** [future.result()]: the caller waits, the worker runs, until the task
    behind the future has returned.  [fuel] bounds the worker steps waited
    for. *)
Fixpoint result (fuel : nat) (h : nat) (st : monitor) : option (Z * monitor) :=
  match nth_error (executor st) h with
  | Some (Done r) => Some (r, st)
  | _ =>
      match fuel with
      | O => None
      | S fuel' => result fuel' h (worker_step st)
      end
  end.

(** [AsyncMemoryMonitor(power)].  The float [1 / (10 ** power)] is kept as
    its exponent.  Its arithmetic is not modelled: for a [power] so low
    that [10 ** power] is 0.0 the source raises [ZeroDivisionError], in
    [__init__] (no monitor is made) and in [set_interval] (the monitor is
    left as it was); here both go through. *)
Definition init (power : Z) : monitor :=
  Monitor false [] None power [] [] 0.

Definition set_interval (power : Z) : M unit :=
  fun st =>
    Ret tt (Monitor (keep_measuring st) (executor st) (monitor_thread st) power
                    (time_stamps st) (mem_stats st) (samples_taken st)).

Definition is_measuring : M bool :=
  fun st => Ret (keep_measuring st) st.

Definition start : M unit :=
  fun st =>
    let st := set_keep_measuring true st in
    let (future, st) := submit st in
    Ret tt (set_monitor_thread (Some future) st).

Definition finish (fuel : nat) (now : Z) : M Z :=
  fun st =>
    if negb (keep_measuring st) then Ret 0 st
    else
      let st := set_keep_measuring false st in
      match monitor_thread st with
      | None => Raise AttributeError st
      | Some future =>
          match result fuel future st with
          | None => Blocked
          | Some (max_usage, st) =>
              let st := set_monitor_thread None st in
              let st := set_time_stamps (time_stamps st ++ [now]) st in
              let st := set_mem_stats (mem_stats st ++ [max_usage]) st in
              Ret max_usage st
          end
      end.

(** ** [MemTracerOpHook]

    The hook's only field is [async_mem_monitor], so its state is the
    monitor's.  [training] is [module.training]; [now] is the clock reading
    [finish] takes if it gets that far. *)

Definition pre_fwd_exec (training : bool) (fuel : nat) (now : Z) : M unit :=
  if training then
    m <- is_measuring ;;
    (if m then finish fuel now ;;; ret tt else ret tt) ;;;
    start
  else ret tt.

Definition post_fwd_exec (training : bool) (fuel : nat) (now : Z) : M unit :=
  if training then finish fuel now ;;; ret tt
  else ret tt.

Definition pre_bwd_exec (training : bool) (fuel : nat) (now : Z) : M unit :=
  if training then
    m <- is_measuring ;;
    (if m then finish fuel now ;;; ret tt else ret tt) ;;;
    start
  else ret tt.

Definition post_bwd_exec (training : bool) (fuel : nat) (now : Z) : M unit :=
  if training then
    m <- is_measuring ;;
    if m then finish fuel now ;;; ret tt else ret tt
  else ret tt.

Definition post_iter (fuel : nat) (now : Z) : M unit :=
  m <- is_measuring ;;
  if m then finish fuel now ;;; ret tt else ret tt.

(** [show_mem_stats], without the two [print]s at its end.  Each [min]
    raises on an empty list; the second one does so after [time_stamps] has
    been rewritten. *)
Definition show_mem_stats : M unit :=
  fun st =>
    match py_min (time_stamps st) with
    | None => Raise ValueError st
    | Some start_timestamp =>
        let st := set_time_stamps
                    (map (fun elem => elem - start_timestamp) (time_stamps st)) st in
        match py_min (mem_stats st) with
        | None => Raise ValueError st
        | Some min_mem_used =>
            let st := set_mem_stats
                        (map (fun elem => elem - min_mem_used) (mem_stats st)) st in
            Ret tt st
        end
    end.

(** ** Everything that can happen to a monitor

    The calls of the two classes and the steps of the worker thread.
    [state_dict], [save] and [save_results] only read the two lists and are
    left out. *)

Inductive call : Type :=
| Start
| Finish (now : Z)
| SetInterval (power : Z)
| IsMeasuring
| PreFwdExec (training : bool) (now : Z)
| PostFwdExec (training : bool) (now : Z)
| PreBwdExec (training : bool) (now : Z)
| PostBwdExec (training : bool) (now : Z)
| PostIter (now : Z)
| ShowMemStats
| WorkerStep.

Definition after (fuel : nat) (c : call) (st : monitor) : option monitor :=
  match c with
  | Start => state_after (start st)
  | Finish now => state_after (finish fuel now st)
  | SetInterval power => state_after (set_interval power st)
  | IsMeasuring => state_after (is_measuring st)
  | PreFwdExec training now => state_after (pre_fwd_exec training fuel now st)
  | PostFwdExec training now => state_after (post_fwd_exec training fuel now st)
  | PreBwdExec training now => state_after (pre_bwd_exec training fuel now st)
  | PostBwdExec training now => state_after (post_bwd_exec training fuel now st)
  | PostIter now => state_after (post_iter fuel now st)
  | ShowMemStats => state_after (show_mem_stats st)
  | WorkerStep => Some (worker_step st)
  end.

(** The calls whose body contains a call of [finish]. *)
Definition calls_finish (c : call) : bool :=
  match c with
  | Finish _ | PreFwdExec _ _ | PostFwdExec _ _ | PreBwdExec _ _
  | PostBwdExec _ _ | PostIter _ => true
  | Start | SetInterval _ | IsMeasuring | ShowMemStats | WorkerStep => false
  end.

Inductive reachable : monitor -> Prop :=
| reach_init (power : Z) : reachable (init power)
| reach_call (fuel : nat) (c : call) (st st' : monitor) :
    reachable st -> after fuel c st = Some st' -> reachable st'.

(** The future of a measuring monitor is the newest task of its pool. *)
Definition future_ok (st : monitor) : Prop :=
  keep_measuring st = true ->
  exists h, monitor_thread st = Some h /\ S h = length (executor st).

(** The worker runs the tasks in submission order: those that have returned
    come first, then at most one that has begun, then those still queued. *)
Definition is_queued (t : task) : bool :=
  match t with Queued => true | _ => false end.

Fixpoint ordered (q : list task) : bool :=
  match q with
  | [] => true
  | Done _ :: q' => ordered q'
  | _ :: q' => forallb is_queued q'
  end.

(** An idle monitor has no task left to run. *)
Definition pool_idle (st : monitor) : Prop :=
  keep_measuring st = false -> forallb is_done (executor st) = true.

Definition lengths_agree (st : monitor) : Prop :=
  length (time_stamps st) = length (mem_stats st).

Definition inv (st : monitor) : Prop :=
  future_ok st /\ pool_idle st /\ ordered (executor st) = true /\
  lengths_agree st.

(** [m] keeps [P], whether it returns or raises. *)
Definition keeps {A : Type} (P : monitor -> Prop) (m : M A) : Prop :=
  forall st st', P st -> state_after (m st) = Some st' -> P st'.

(** What the worker never touches. *)
Definition same_caller_view (st st' : monitor) : Prop :=
  keep_measuring st' = keep_measuring st /\
  monitor_thread st' = monitor_thread st /\
  interval st' = interval st /\
  time_stamps st' = time_stamps st /\
  mem_stats st' = mem_stats st /\
  length (executor st') = length (executor st).

(** The state [finish] leaves when the wait ended in [st2] with [m]. *)
Definition finished (now m : Z) (st st2 : monitor) : monitor :=
  Monitor false (executor st2) None (interval st)
          (time_stamps st ++ [now]) (mem_stats st ++ [m]) (samples_taken st2).

(** The pool during the session opened when [c0] readings had been taken:
    the last task is the session's, the others have returned, and the
    task's [max_usage] is the loop's value on the readings taken since. *)
Definition in_session (c0 : nat) (st : monitor) : Prop :=
  exists done t,
    executor st = done ++ [t] /\
    forallb is_done done = true /\
    (c0 <= samples_taken st)%nat /\
    task_max t = measure_usage (readings c0 (samples_taken st - c0)).

(** The state [show_mem_stats] leaves when both minima exist. *)
Definition normalized (t0 u0 : Z) (st : monitor) : monitor :=
  Monitor (keep_measuring st) (executor st) (monitor_thread st) (interval st)
          (map (fun elem => elem - t0) (time_stamps st))
          (map (fun elem => elem - u0) (mem_stats st))
          (samples_taken st).

(** Worker steps still owed by the pool once the flag is down. *)
Definition owed (t : task) : nat :=
  match t with
  | Queued | InBody _ => 2
  | AtLoop _ => 1
  | Done _ => 0
  end.

Definition backlog (q : list task) : nat :=
  fold_right (fun t n => (owed t + n)%nat) 0%nat q.

(** Any call, its value dropped. *)
Definition perform (fuel : nat) (c : call) : M unit :=
  match c with
  | Start => start
  | Finish now => finish fuel now ;;; ret tt
  | SetInterval power => set_interval power
  | IsMeasuring => is_measuring ;;; ret tt
  | PreFwdExec training now => pre_fwd_exec training fuel now
  | PostFwdExec training now => post_fwd_exec training fuel now
  | PreBwdExec training now => pre_bwd_exec training fuel now
  | PostBwdExec training now => post_bwd_exec training fuel now
  | PostIter now => post_iter fuel now
  | ShowMemStats => show_mem_stats
  | WorkerStep => fun st => Ret tt (worker_step st)
  end.

(** The states reached when [start] is only ever called on an idle
    monitor, as the handlers call it. *)
Inductive disciplined : monitor -> Prop :=
| disc_init (power : Z) : disciplined (init power)
| disc_call (fuel : nat) (c : call) (st st' : monitor) :
    disciplined st ->
    (c = Start -> keep_measuring st = false) ->
    after fuel c st = Some st' ->
    disciplined st'.

(** ** The worker thread *)

Lemma worker_length (flag : bool) (sample : Z) (q : list task) :
  length (fst (worker flag sample q)) = length q.
Proof.
  induction q as [|t q IH]; [reflexivity|].
  destruct t; simpl; try reflexivity.
  destruct (worker flag sample q); simpl in *; congruence.
Qed.

Lemma worker_backlog (sample : Z) (q : list task) :
  backlog (fst (worker false sample q)) = Nat.pred (backlog q).
Proof.
  induction q as [|t q IH]; [reflexivity|].
  destruct t; simpl; try reflexivity.
  destruct (worker false sample q); simpl in *; assumption.
Qed.

Lemma backlog_pending (q : list task) (h : nat) (t : task) :
  nth_error q h = Some t -> is_done t = false -> (0 < backlog q)%nat.
Proof.
  revert h; induction q as [|u q IH]; intros [|h] Hn Hd; simpl in *;
    try discriminate.
  - injection Hn as ->. destruct t; simpl; try lia. discriminate.
  - specialize (IH h Hn Hd). lia.
Qed.

Lemma backlog_bound (q : list task) : (backlog q <= 2 * length q)%nat.
Proof.
  induction q as [|t q IH]; simpl; [lia|].
  destruct t; simpl; lia.
Qed.

(** Past the tasks that have returned, the worker runs the next one. *)
Lemma worker_skips_done (flag : bool) (sample : Z) (done q : list task) :
  forallb is_done done = true ->
  worker flag sample (done ++ q) =
  (done ++ fst (worker flag sample q), snd (worker flag sample q)).
Proof.
  induction done as [|t done IH]; simpl; intros Hd.
  - destruct (worker flag sample q); reflexivity.
  - apply andb_true_iff in Hd as [Ht Hd].
    destruct t; try discriminate.
    rewrite (IH Hd). reflexivity.
Qed.

Lemma worker_step_keep_measuring st :
  keep_measuring (worker_step st) = keep_measuring st.
Proof. unfold worker_step. destruct (worker _ _ _). reflexivity. Qed.

Lemma worker_step_monitor_thread st :
  monitor_thread (worker_step st) = monitor_thread st.
Proof. unfold worker_step. destruct (worker _ _ _). reflexivity. Qed.

Lemma worker_step_interval st : interval (worker_step st) = interval st.
Proof. unfold worker_step. destruct (worker _ _ _). reflexivity. Qed.

Lemma worker_step_time_stamps st :
  time_stamps (worker_step st) = time_stamps st.
Proof. unfold worker_step. destruct (worker _ _ _). reflexivity. Qed.

Lemma worker_step_mem_stats st : mem_stats (worker_step st) = mem_stats st.
Proof. unfold worker_step. destruct (worker _ _ _). reflexivity. Qed.

Lemma worker_step_executor st :
  executor (worker_step st) =
  fst (worker (keep_measuring st) (get_sys_memory_used (samples_taken st))
              (executor st)).
Proof. unfold worker_step. destruct (worker _ _ _). reflexivity. Qed.

Lemma worker_step_samples_taken st :
  samples_taken (worker_step st) =
  if snd (worker (keep_measuring st) (get_sys_memory_used (samples_taken st))
                 (executor st))
  then S (samples_taken st) else samples_taken st.
Proof. unfold worker_step. destruct (worker _ _ _). reflexivity. Qed.

Lemma worker_step_length st :
  length (executor (worker_step st)) = length (executor st).
Proof. rewrite worker_step_executor. apply worker_length. Qed.

Lemma run_worker_view (n : nat) st : same_caller_view st (run_worker n st).
Proof.
  revert st; induction n as [|n IH]; intros st; simpl.
  - repeat split.
  - destruct (IH (worker_step st)) as (A & B & C & D & E & F).
    unfold same_caller_view.
    rewrite A, B, C, D, E, F.
    rewrite worker_step_keep_measuring, worker_step_monitor_thread,
      worker_step_interval, worker_step_time_stamps, worker_step_mem_stats,
      worker_step_length.
    repeat split.
Qed.

(** ** Waiting for the future *)

(** A wait that ends has run the worker some number of steps and found the
    task returned. *)
Lemma result_inv (fuel h : nat) st (r : Z) st' :
  result fuel h st = Some (r, st') ->
  exists n, (n <= fuel)%nat /\ st' = run_worker n st /\
            nth_error (executor st') h = Some (Done r).
Proof.
  revert st; induction fuel as [|fuel IH]; intros st; simpl.
  - destruct (nth_error (executor st) h) as [[| | |m]|] eqn:E; try discriminate.
    intros [= <- <-]. exists 0%nat. simpl. auto.
  - destruct (nth_error (executor st) h) as [[| | |m]|] eqn:E;
      try (intros H; destruct (IH _ H) as (n & Hn & -> & Hd);
           exists (S n); simpl; split; [lia|auto]).
    intros [= <- <-]. exists 0%nat. simpl. split; [lia|auto].
Qed.

(** With the flag down the wait ends: every task owes at most two steps. *)
Lemma result_returns (fuel h : nat) st :
  keep_measuring st = false ->
  (h < length (executor st))%nat ->
  (backlog (executor st) <= fuel)%nat ->
  exists r st', result fuel h st = Some (r, st').
Proof.
  revert st; induction fuel as [|fuel IH]; intros st Hk Hh Hb.
  - simpl. destruct (nth_error (executor st) h) as [t|] eqn:E.
    + destruct t; try (exfalso;
        assert (0 < backlog (executor st))%nat
          by (eapply backlog_pending; [exact E|reflexivity]); lia).
      eauto.
    + apply nth_error_None in E. lia.
  - simpl. destruct (nth_error (executor st) h) as [t|] eqn:E.
    + assert (Hnext : exists r st', result fuel h (worker_step st) = Some (r, st')).
      { apply IH.
        - rewrite worker_step_keep_measuring; assumption.
        - rewrite worker_step_length; assumption.
        - rewrite worker_step_executor, Hk, worker_backlog. lia. }
      destruct t; eauto.
    + apply nth_error_None in E. lia.
Qed.

(** ** [finish] *)

Lemma finish_idle (fuel : nat) (now : Z) st :
  keep_measuring st = false -> finish fuel now st = Ret 0 st.
Proof. intros Hk. unfold finish. rewrite Hk. reflexivity. Qed.

(** Whatever the fuel, a [finish] on a measuring monitor that returns has
    waited for the task and appended one pair. *)
Lemma finish_measuring_inv (fuel : nat) (now : Z) st (m : Z) st' :
  keep_measuring st = true ->
  finish fuel now st = Ret m st' ->
  exists h n,
    monitor_thread st = Some h /\
    nth_error (executor (run_worker n (set_keep_measuring false st))) h
      = Some (Done m) /\
    st' = finished now m st (run_worker n (set_keep_measuring false st)).
Proof.
  intros Hk. unfold finish. rewrite Hk. simpl.
  destruct (monitor_thread st) as [h|] eqn:Hm; [|discriminate].
  destruct (result fuel h (set_keep_measuring false st)) as [[r st2]|] eqn:Hr;
    [|discriminate].
  intros [= <- <-].
  destruct (result_inv _ _ _ _ _ Hr) as (n & _ & -> & Hd).
  exists h, n. split; [reflexivity|]. split; [exact Hd|].
  destruct (run_worker_view n (set_keep_measuring false st))
    as (A & _ & C & D & E & _).
  unfold finished, set_mem_stats, set_time_stamps, set_monitor_thread. simpl.
  rewrite A, C, D, E. reflexivity.
Qed.

(** With a future that names a task of the pool and fuel for the backlog,
    [finish] on a measuring monitor returns. *)
Lemma finish_measuring (fuel : nat) (now : Z) st (h : nat) :
  keep_measuring st = true ->
  monitor_thread st = Some h ->
  (h < length (executor st))%nat ->
  (2 * length (executor st) <= fuel)%nat ->
  exists m st', finish fuel now st = Ret m st'.
Proof.
  intros Hk Hm Hh Hf. unfold finish. rewrite Hk. simpl. rewrite Hm.
  destruct (result_returns fuel h (set_keep_measuring false st))
    as (r & st2 & Hr); simpl; auto.
  - pose proof (backlog_bound (executor st)). lia.
  - rewrite Hr. eauto.
Qed.

Lemma finish_raise_inv (fuel : nat) (now : Z) st (e : exn) st' :
  finish fuel now st = Raise e st' ->
  keep_measuring st = true /\ monitor_thread st = None.
Proof.
  unfold finish. destruct (keep_measuring st); simpl; [|discriminate].
  destruct (monitor_thread st) as [h|]; [|auto].
  destruct (result fuel h (set_keep_measuring false st)) as [[r st2]|];
    discriminate.
Qed.

(** ** One session of the sampling task *)

Lemma measure_usage_snoc (l : list Z) (x : Z) :
  measure_usage (l ++ [x]) = Z.max (measure_usage l) x.
Proof. unfold measure_usage. rewrite fold_left_app. reflexivity. Qed.

Lemma readings_S (c k : nat) :
  readings c (S k) = readings c k ++ [get_sys_memory_used (c + k)%nat].
Proof. unfold readings. rewrite seq_S, map_app. reflexivity. Qed.

Lemma in_session_worker_step (c0 : nat) st :
  in_session c0 st -> in_session c0 (worker_step st).
Proof.
  intros (done & t & He & Hd & Hc & Hm).
  unfold in_session.
  rewrite worker_step_executor, worker_step_samples_taken, He,
    (worker_skips_done _ _ _ _ Hd).
  destruct t as [|m|m|m]; cbn [worker fst snd task_max] in *.
  - exists done, (AtLoop 0). auto.
  - exists done, (if keep_measuring st then InBody m else Done m).
    repeat split; auto. destruct (keep_measuring st); exact Hm.
  - exists done, (AtLoop (Z.max m (get_sys_memory_used (samples_taken st)))).
    repeat split; auto.
    replace (S (samples_taken st) - c0)%nat with (S (samples_taken st - c0))
      by lia.
    rewrite readings_S, measure_usage_snoc. cbn [task_max].
    replace (c0 + (samples_taken st - c0))%nat with (samples_taken st) by lia.
    rewrite Hm. reflexivity.
  - exists done, (Done m). auto.
Qed.

Lemma in_session_run_worker (c0 n : nat) st :
  in_session c0 st -> in_session c0 (run_worker n st).
Proof.
  revert st; induction n as [|n IH]; intros st H; simpl; [exact H|].
  apply IH, in_session_worker_step, H.
Qed.

Lemma in_session_start st st1 :
  forallb is_done (executor st) = true ->
  start st = Ret tt st1 ->
  in_session (samples_taken st) st1 /\
  keep_measuring st1 = true /\
  monitor_thread st1 = Some (length (executor st)) /\
  length (executor st1) = S (length (executor st)).
Proof.
  intros Hd [= <-]. simpl. repeat split.
  - exists (executor st), Queued. simpl. repeat split; auto.
    rewrite Nat.sub_diag. reflexivity.
  - rewrite length_app. simpl. lia.
Qed.

(** The task found returned at the session's position holds the loop's
    value on the session's readings. *)
Lemma in_session_done (c0 : nat) st (h : nat) (m : Z) :
  in_session c0 st ->
  length (executor st) = S h ->
  nth_error (executor st) h = Some (Done m) ->
  m = measure_usage (readings c0 (samples_taken st - c0)).
Proof.
  intros (done & t & He & _ & _ & Hm) Hl Hn.
  rewrite He in Hl, Hn. rewrite length_app in Hl. simpl in Hl.
  assert (Hh : h = length done) by lia. subst h.
  rewrite nth_error_app2, Nat.sub_diag in Hn by lia.
  simpl in Hn. injection Hn as ->. exact Hm.
Qed.

(** ** [min] and the rewriting of [show_mem_stats] *)

Lemma py_min_None (l : list Z) : py_min l = None <-> l = [].
Proof.
  destruct l as [|x l]; simpl; [tauto|].
  destruct (py_min l); split; discriminate.
Qed.

Lemma py_min_In (l : list Z) (m : Z) : py_min l = Some m -> In m l.
Proof.
  revert m; induction l as [|x l IH]; simpl; intros m; [discriminate|].
  destruct (py_min l) as [m'|].
  - intros [= <-]. destruct (Z.min_spec x m') as [[_ ->]|[_ ->]]; auto.
  - intros [= <-]. auto.
Qed.

Lemma py_min_le (l : list Z) (m : Z) :
  py_min l = Some m -> forall x, In x l -> m <= x.
Proof.
  revert m; induction l as [|x l IH]; simpl; intros m; [discriminate|].
  destruct (py_min l) as [m'|] eqn:E.
  - intros [= <-] y [<-|Hy]; [lia|]. specialize (IH m' eq_refl y Hy). lia.
  - intros [= <-] y [<-|Hy]; [lia|].
    apply py_min_None in E. subst l. destruct Hy.
Qed.

Lemma py_min_shift (l : list Z) (m c : Z) :
  py_min l = Some m -> py_min (map (fun elem => elem - c) l) = Some (m - c).
Proof.
  revert m; induction l as [|x l IH]; simpl; intros m; [discriminate|].
  destruct (py_min l) as [m'|] eqn:E.
  - intros [= <-]. rewrite (IH m' eq_refl). f_equal. lia.
  - intros [= <-]. apply py_min_None in E. subst l. reflexivity.
Qed.

Lemma map_sub_0 (l : list Z) : map (fun elem => elem - 0) l = l.
Proof.
  induction l as [|x l IH]; simpl; [reflexivity|].
  rewrite IH, Z.sub_0_r. reflexivity.
Qed.

Lemma show_mem_stats_Ret st (t0 u0 : Z) :
  py_min (time_stamps st) = Some t0 ->
  py_min (mem_stats st) = Some u0 ->
  show_mem_stats st = Ret tt (normalized t0 u0 st).
Proof.
  intros Ht Hu. unfold show_mem_stats. rewrite Ht. simpl. rewrite Hu.
  reflexivity.
Qed.

Lemma py_min_Some (l : list Z) : l <> [] -> exists m, py_min l = Some m.
Proof.
  intros Hl. destruct (py_min l) as [m|] eqn:E; [eauto|].
  apply py_min_None in E. contradiction.
Qed.

(** ** The running maximum is a maximum *)



(** ** The order of the pool *)

Lemma ordered_queued (q : list task) :
  forallb is_queued q = true -> ordered q = true.
Proof.
  destruct q as [|t q]; [reflexivity|].
  destruct t; simpl; try discriminate. auto.
Qed.

Lemma worker_ordered (flag : bool) (sample : Z) (q : list task) :
  ordered q = true -> ordered (fst (worker flag sample q)) = true.
Proof.
  induction q as [|t q IH]; [reflexivity|].
  destruct t as [|m|m|m]; simpl; intros H; try exact H.
  - destruct flag; simpl; [exact H|apply ordered_queued, H].
  - destruct (worker flag sample q); simpl in *. auto.
Qed.

Lemma submit_ordered (q : list task) :
  ordered q = true -> ordered (q ++ [Queued]) = true.
Proof.
  induction q as [|t q IH]; [reflexivity|].
  destruct t; simpl; intros H; auto;
    rewrite forallb_app, H; reflexivity.
Qed.

Lemma queued_nth (q : list task) (h : nat) (t : task) :
  forallb is_queued q = true -> nth_error q h = Some t -> is_queued t = true.
Proof.
  revert h; induction q as [|u q IH]; intros [|h] Hq Hn; simpl in *;
    try discriminate; apply andb_true_iff in Hq as [Hu Hq].
  - injection Hn as <-. exact Hu.
  - exact (IH h Hq Hn).
Qed.

(** When the newest task has returned, every task has. *)
Lemma ordered_last_done (q : list task) (h : nat) (r : Z) :
  ordered q = true ->
  nth_error q h = Some (Done r) ->
  S h = length q ->
  forallb is_done q = true.
Proof.
  revert h; induction q as [|t q IH]; intros h Ho Hn Hl; [reflexivity|].
  destruct t as [|m|m|m]; simpl in *;
    try (destruct h as [|h]; simpl in Hn; [discriminate|];
         pose proof (queued_nth _ _ _ Ho Hn); discriminate).
  destruct h as [|h]; simpl in Hn.
  - destruct q; [reflexivity|discriminate].
  - apply (IH h Ho Hn). lia.
Qed.

Lemma worker_idle (flag : bool) (sample : Z) (q : list task) :
  forallb is_done q = true -> fst (worker flag sample q) = q.
Proof.
  induction q as [|t q IH]; [reflexivity|].
  destruct t; simpl; try discriminate.
  intros H. destruct (worker flag sample q); simpl in *.
  rewrite (IH H). reflexivity.
Qed.

Lemma run_worker_ordered (n : nat) st :
  ordered (executor st) = true ->
  ordered (executor (run_worker n st)) = true.
Proof.
  revert st; induction n as [|n IH]; intros st H; simpl; [exact H|].
  apply IH. rewrite worker_step_executor. apply worker_ordered, H.
Qed.

(** ** What every call preserves *)

Lemma keeps_ret {A : Type} (P : monitor -> Prop) (a : A) : keeps P (ret a).
Proof. intros st st' HP [= <-]. exact HP. Qed.

Lemma keeps_bind {A B : Type} (P : monitor -> Prop) (m : M A) (f : A -> M B) :
  keeps P m -> (forall a, keeps P (f a)) -> keeps P (bind m f).
Proof.
  intros Hm Hf st st' HP. unfold bind.
  destruct (m st) as [a st1|e st1|] eqn:E; simpl; intros H.
  - apply (Hf a st1 st'); [|exact H]. apply (Hm st st1 HP). rewrite E. reflexivity.
  - injection H as <-. apply (Hm st st1 HP). rewrite E. reflexivity.
  - discriminate.
Qed.

Lemma keeps_if {A : Type} (P : monitor -> Prop) (c : bool) (a b : M A) :
  keeps P a -> keeps P b -> keeps P (if c then a else b).
Proof. destruct c; auto. Qed.

Lemma keeps_is_measuring (P : monitor -> Prop) : keeps P is_measuring.
Proof. intros st st' HP [= <-]. exact HP. Qed.

Lemma inv_init (power : Z) : inv (init power).
Proof.
  repeat split; try reflexivity. intros H; discriminate.
Qed.

Lemma inv_start : keeps inv start.
Proof.
  intros st st' (_ & _ & Ho & Hl) [= <-]. repeat split.
  - intros _. exists (length (executor st)). simpl.
    split; [reflexivity|]. rewrite length_app. simpl. lia.
  - intros H; discriminate.
  - simpl. apply submit_ordered, Ho.
  - exact Hl.
Qed.

Lemma inv_set_interval (power : Z) : keeps inv (set_interval power).
Proof. intros st st' (Hf & Hp & Ho & Hl) [= <-]. repeat split; assumption. Qed.

Lemma inv_worker_step st : inv st -> inv (worker_step st).
Proof.
  intros (Hf & Hp & Ho & Hl). repeat split.
  - unfold future_ok.
    rewrite worker_step_keep_measuring, worker_step_monitor_thread,
      worker_step_length. exact Hf.
  - unfold pool_idle.
    rewrite worker_step_keep_measuring, worker_step_executor. intros Hk.
    rewrite worker_idle; auto.
  - rewrite worker_step_executor. apply worker_ordered, Ho.
  - unfold lengths_agree.
    rewrite worker_step_time_stamps, worker_step_mem_stats. exact Hl.
Qed.

Lemma inv_finish (fuel : nat) (now : Z) : keeps inv (finish fuel now).
Proof.
  intros st st' (Hf & Hp & Ho & Hl) H.
  destruct (keep_measuring st) eqn:Hk.
  - destruct (Hf Hk) as (h & Hh & Hlast).
    destruct (finish fuel now st) as [m st1|e st1|] eqn:E; simpl in H;
      try discriminate; injection H as ->.
    + destruct (finish_measuring_inv _ _ _ _ _ Hk E) as (h' & n & Hh' & Hd & ->).
      assert (h' = h) by congruence. subst h'.
      assert (Hall : forallb is_done
                (executor (run_worker n (set_keep_measuring false st))) = true).
      { apply (ordered_last_done _ h m).
        - apply run_worker_ordered. exact Ho.
        - exact Hd.
        - destruct (run_worker_view n (set_keep_measuring false st))
            as (_ & _ & _ & _ & _ & L).
          rewrite L. exact Hlast. }
      repeat split.
      * intros Hc; discriminate.
      * intros _. exact Hall.
      * simpl. apply run_worker_ordered. exact Ho.
      * unfold lengths_agree, finished. simpl. rewrite !length_app. simpl.
        rewrite Hl. reflexivity.
    + destruct (finish_raise_inv _ _ _ _ _ E) as [_ Hn]. congruence.
  - rewrite (finish_idle _ _ _ Hk) in H. injection H as <-.
    repeat split; assumption.
Qed.

Lemma inv_show_mem_stats : keeps inv show_mem_stats.
Proof.
  intros st st' (Hf & Hp & Ho & Hl). unfold show_mem_stats.
  destruct (py_min (time_stamps st)) as [t0|]; simpl.
  - destruct (py_min (mem_stats st)) as [u0|]; simpl; intros [= <-];
      repeat split; try assumption; unfold lengths_agree; simpl;
      rewrite ?length_map; exact Hl.
  - intros [= <-]. repeat split; assumption.
Qed.

Ltac keeps_inv :=
  repeat match goal with
  | |- forall _, _ => intro
  | |- keeps _ (bind _ _) => apply keeps_bind
  | |- keeps _ (if _ then _ else _) => apply keeps_if
  | |- keeps _ (ret _) => apply keeps_ret
  | |- keeps _ is_measuring => apply keeps_is_measuring
  | |- keeps inv (finish _ _) => apply inv_finish
  | |- keeps inv start => apply inv_start
  end.

Lemma inv_pre_fwd_exec (training : bool) (fuel : nat) (now : Z) :
  keeps inv (pre_fwd_exec training fuel now).
Proof. unfold pre_fwd_exec. keeps_inv. Qed.

Lemma inv_post_fwd_exec (training : bool) (fuel : nat) (now : Z) :
  keeps inv (post_fwd_exec training fuel now).
Proof. unfold post_fwd_exec. keeps_inv. Qed.

Lemma inv_pre_bwd_exec (training : bool) (fuel : nat) (now : Z) :
  keeps inv (pre_bwd_exec training fuel now).
Proof. unfold pre_bwd_exec. keeps_inv. Qed.

Lemma inv_post_bwd_exec (training : bool) (fuel : nat) (now : Z) :
  keeps inv (post_bwd_exec training fuel now).
Proof. unfold post_bwd_exec. keeps_inv. Qed.

Lemma inv_post_iter (fuel : nat) (now : Z) : keeps inv (post_iter fuel now).
Proof. unfold post_iter. keeps_inv. Qed.

Lemma inv_after (fuel : nat) (c : call) st st' :
  inv st -> after fuel c st = Some st' -> inv st'.
Proof.
  intros Hi H. destruct c; unfold after in H; cbv beta iota in H.
  - exact (inv_start _ _ Hi H).
  - exact (inv_finish _ _ _ _ Hi H).
  - exact (inv_set_interval _ _ _ Hi H).
  - exact (keeps_is_measuring inv _ _ Hi H).
  - exact (inv_pre_fwd_exec _ _ _ _ _ Hi H).
  - exact (inv_post_fwd_exec _ _ _ _ _ Hi H).
  - exact (inv_pre_bwd_exec _ _ _ _ _ Hi H).
  - exact (inv_post_bwd_exec _ _ _ _ _ Hi H).
  - exact (inv_post_iter _ _ _ _ Hi H).
  - exact (inv_show_mem_stats _ _ Hi H).
  - injection H as <-. apply inv_worker_step, Hi.
Qed.

Lemma reachable_inv st : reachable st -> inv st.
Proof.
  induction 1 as [power|fuel c st st' _ IH H].
  - apply inv_init.
  - exact (inv_after fuel c st st' IH H).
Qed.

(** A reachable measuring monitor can be finished. *)
Lemma reachable_finish_returns (fuel : nat) (now : Z) st :
  reachable st ->
  keep_measuring st = true ->
  (2 * length (executor st) <= fuel)%nat ->
  exists m st', finish fuel now st = Ret m st'.
Proof.
  intros Hr Hk Hfuel.
  destruct (reachable_inv st Hr) as (Hf & _).
  destruct (Hf Hk) as (h & Hh & Hlast).
  apply (finish_measuring fuel now st h); auto. lia.
Qed.

(** ** The claims *)

(** What [start] does, on every state: it raises the flag, queues one task
    and points the future at it; the two lists are left as they are. *)
Lemma start_Ret st :
  start st =
  Ret tt (Monitor true (executor st ++ [Queued]) (Some (length (executor st)))
                  (interval st) (time_stamps st) (mem_stats st)
                  (samples_taken st)).
Proof. reflexivity. Qed.

Lemma pre_exec_measuring (fuel : nat) (now : Z) st (m : Z) st1 :
  keep_measuring st = true ->
  finish fuel now st = Ret m st1 ->
  pre_fwd_exec true fuel now st = start st1 /\
  pre_bwd_exec true fuel now st = start st1.
Proof.
  intros Hk Hfin.
  unfold pre_fwd_exec, pre_bwd_exec, bind, is_measuring, ret.
  rewrite Hk, Hfin. split; reflexivity.
Qed.

(** C1 (amended).  [start] never closes a session: it only raises the flag
    and submits a new sampling task, so the series is left untouched by it.
    The implicit [finish] is done by the pre-phase handlers: on a measuring
    monitor, [pre_fwd_exec] and [pre_bwd_exec] of a training module first
    run [finish], which records exactly one entry for the stale session,
    and then [start], which opens a session on a fresh task. *)
Theorem pre_exec_closes_stale_session (fuel : nat) (now : Z) st :
  reachable st ->
  keep_measuring st = true ->
  (2 * length (executor st) <= fuel)%nat ->
  (exists st1,
      start st = Ret tt st1 /\ keep_measuring st1 = true /\
      time_stamps st1 = time_stamps st /\ mem_stats st1 = mem_stats st) /\
  (exists m st1 st2,
      finish fuel now st = Ret m st1 /\
      start st1 = Ret tt st2 /\
      pre_fwd_exec true fuel now st = Ret tt st2 /\
      pre_bwd_exec true fuel now st = Ret tt st2 /\
      time_stamps st2 = time_stamps st ++ [now] /\
      mem_stats st2 = mem_stats st ++ [m] /\
      keep_measuring st2 = true /\
      in_session (samples_taken st2) st2).
Proof.
  intros Hr Hk Hfuel. split.
  - eexists. rewrite start_Ret. repeat split.
  - destruct (reachable_finish_returns fuel now st Hr Hk Hfuel)
      as (m & st1 & Hfin).
    destruct (pre_exec_measuring _ _ _ _ _ Hk Hfin) as [Hfwd Hbwd].
    assert (Hi : inv st1).
    { apply (inv_finish fuel now st st1 (reachable_inv st Hr)).
      rewrite Hfin. reflexivity. }
    destruct (finish_measuring_inv _ _ _ _ _ Hk Hfin) as (h & n & _ & _ & E).
    destruct Hi as (_ & Hidle & _).
    assert (Hk1 : keep_measuring st1 = false) by (rewrite E; reflexivity).
    destruct (in_session_start st1 _ (Hidle Hk1) (start_Ret st1))
      as (Hs & _).
    exists m, st1. eexists.
    rewrite Hfwd, Hbwd, start_Ret.
    split; [exact Hfin|].
    repeat (split; [reflexivity|]).
    split; [rewrite E; reflexivity|].
    split; [rewrite E; reflexivity|].
    split; [reflexivity|exact Hs].
Qed.

(** C2.  [finish] on an idle monitor returns 0 and leaves the monitor as it
    was, the two lists included; a monitor just created is idle. *)
Theorem finish_when_idle (fuel : nat) (now power : Z) st :
  keep_measuring st = false ->
  finish fuel now st = Ret 0 st /\
  finish fuel now (init power) = Ret 0 (init power).
Proof.
  intros Hk. split; apply finish_idle; [exact Hk|reflexivity].
Qed.




(** C6.  On a series with entries, [show_mem_stats] takes [t0], the least
    of [time_stamps], and [u0], the least of [mem_stats], and replaces the
    lists by their elements minus [t0] and minus [u0]; nothing else
    changes.  On [5, 8, 10] and [200, 150, 300] the lists become
    [0, 3, 5] and [50, 0, 150]. *)
Theorem show_mem_stats_normalizes st :
  time_stamps st <> [] ->
  mem_stats st <> [] ->
  exists t0 u0,
    (In t0 (time_stamps st) /\ forall t, In t (time_stamps st) -> t0 <= t) /\
    (In u0 (mem_stats st) /\ forall u, In u (mem_stats st) -> u0 <= u) /\
    show_mem_stats st =
    Ret tt (Monitor (keep_measuring st) (executor st) (monitor_thread st)
                    (interval st)
                    (map (fun t => t - t0) (time_stamps st))
                    (map (fun u => u - u0) (mem_stats st))
                    (samples_taken st)) /\
    (time_stamps st = [5; 8; 10] -> mem_stats st = [200; 150; 300] ->
     map (fun t => t - t0) (time_stamps st) = [0; 3; 5] /\
     map (fun u => u - u0) (mem_stats st) = [50; 0; 150]).
Proof.
  intros Ht Hu.
  destruct (py_min_Some _ Ht) as (t0 & Et).
  destruct (py_min_Some _ Hu) as (u0 & Eu).
  exists t0, u0.
  split; [split; [exact (py_min_In _ _ Et)|exact (py_min_le _ _ Et)]|].
  split; [split; [exact (py_min_In _ _ Eu)|exact (py_min_le _ _ Eu)]|].
  split; [exact (show_mem_stats_Ret st t0 u0 Et Eu)|].
  intros H1 H2. rewrite H1 in Et |- *. rewrite H2 in Eu |- *.
  injection Et as <-. injection Eu as <-. split; reflexivity.
Qed.

(** C7.  On a series without entries [show_mem_stats] raises [ValueError],
    the error of [min] on an empty list, and changes nothing: it does not
    return, and no minimum is made up. *)
Theorem show_mem_stats_empty_raises st :
  time_stamps st = [] ->
  show_mem_stats st = Raise ValueError st.
Proof.
  intros H. unfold show_mem_stats. rewrite H. reflexivity.
Qed.

Lemma bind_finish_state (fuel : nat) (now : Z) st :
  state_after ((finish fuel now ;;; ret tt) st) =
  state_after (finish fuel now st).
Proof.
  unfold bind, ret. destruct (finish fuel now st); reflexivity.
Qed.

(** C8.  In every state the monitor can reach, [time_stamps] and
    [mem_stats] have the same length; every call, and every step of the
    worker, leads to such a state again; and a call whose body has no call
    of [finish] leaves both lengths as they were. *)
Theorem series_lengths_agree st :
  reachable st ->
  length (time_stamps st) = length (mem_stats st) /\
  forall (fuel : nat) (c : call) st',
    after fuel c st = Some st' ->
    length (time_stamps st') = length (mem_stats st') /\
    (calls_finish c = false ->
     length (time_stamps st') = length (time_stamps st) /\
     length (mem_stats st') = length (mem_stats st)).
Proof.
  intros Hr. split; [apply (reachable_inv st Hr)|].
  intros fuel c st' H. split.
  - apply (reachable_inv st'). exact (reach_call fuel c st st' Hr H).
  - intros Hc. destruct c; try discriminate; unfold after in H;
      cbv beta iota in H.
    + rewrite start_Ret in H. injection H as <-. split; reflexivity.
    + injection H as <-. split; reflexivity.
    + injection H as <-. split; reflexivity.
    + unfold show_mem_stats in H.
      destruct (py_min (time_stamps st)) as [t0|]; simpl in H.
      * destruct (py_min (mem_stats st)) as [u0|]; simpl in H;
          injection H as <-; simpl; rewrite ?length_map; split; reflexivity.
      * injection H as <-. split; reflexivity.
    + injection H as <-.
      rewrite worker_step_time_stamps, worker_step_mem_stats.
      split; reflexivity.
Qed.

(** C9 (amended).  The four handlers that receive a module,
    [pre_fwd_exec], [post_fwd_exec], [pre_bwd_exec] and [post_bwd_exec],
    return at once and leave the monitor as it was when the module is not
    training.  [post_iter] receives no module: it leaves an idle monitor
    as it was, and on a measuring monitor it does what [finish] does. *)
Theorem handlers_when_not_training (fuel : nat) (now : Z) st :
  pre_fwd_exec false fuel now st = Ret tt st /\
  post_fwd_exec false fuel now st = Ret tt st /\
  pre_bwd_exec false fuel now st = Ret tt st /\
  post_bwd_exec false fuel now st = Ret tt st /\
  (keep_measuring st = false -> post_iter fuel now st = Ret tt st) /\
  (keep_measuring st = true ->
   state_after (post_iter fuel now st) = state_after (finish fuel now st)).
Proof.
  repeat (split; [reflexivity|]).
  unfold post_iter, is_measuring. unfold bind at 1 3.
  split; intros Hk; rewrite Hk; [reflexivity|apply bind_finish_state].
Qed.

(** C10.  On a series with entries, one [show_mem_stats] leaves lists
    whose least elements are both 0, and a second one returns the state
    left by the first. *)
Theorem show_mem_stats_idempotent st :
  time_stamps st <> [] ->
  mem_stats st <> [] ->
  exists st1,
    show_mem_stats st = Ret tt st1 /\
    py_min (time_stamps st1) = Some 0 /\
    py_min (mem_stats st1) = Some 0 /\
    show_mem_stats st1 = Ret tt st1.
Proof.
  intros Ht Hu.
  destruct (py_min_Some _ Ht) as (t0 & Et).
  destruct (py_min_Some _ Hu) as (u0 & Eu).
  exists (normalized t0 u0 st).
  assert (Et1 : py_min (time_stamps (normalized t0 u0 st)) = Some 0).
  { simpl. rewrite (py_min_shift _ _ t0 Et). f_equal. lia. }
  assert (Eu1 : py_min (mem_stats (normalized t0 u0 st)) = Some 0).
  { simpl. rewrite (py_min_shift _ _ u0 Eu). f_equal. lia. }
  split; [exact (show_mem_stats_Ret st t0 u0 Et Eu)|].
  split; [exact Et1|]. split; [exact Eu1|].
  rewrite (show_mem_stats_Ret _ 0 0 Et1 Eu1).
  unfold normalized at 1. simpl. rewrite !map_sub_0. reflexivity.
Qed.

(** ** Further properties of the monitor *)

Lemma after_perform (fuel : nat) (c : call) st :
  after fuel c st = state_after (perform fuel c st).
Proof.
  destruct c; try reflexivity. symmetry. apply bind_finish_state.
Qed.

Ltac keeps_calls :=
  repeat match goal with
  | |- forall _, _ => intro
  | |- keeps _ (bind _ _) => apply keeps_bind
  | |- keeps _ (if _ then _ else _) => apply keeps_if
  | |- keeps _ (ret _) => apply keeps_ret
  | |- keeps _ is_measuring => apply keeps_is_measuring
  | H : forall fuel now, keeps ?P (finish fuel now) |- keeps ?P (finish _ _) =>
      apply H
  | H : keeps ?P start |- keeps ?P start => exact H
  end.

(** The handlers keep what [start] and [finish] keep. *)
Lemma keeps_handlers (P : monitor -> Prop) :
  keeps P start ->
  (forall fuel now, keeps P (finish fuel now)) ->
  forall (training : bool) (fuel : nat) (now : Z),
    keeps P (pre_fwd_exec training fuel now) /\
    keeps P (post_fwd_exec training fuel now) /\
    keeps P (pre_bwd_exec training fuel now) /\
    keeps P (post_bwd_exec training fuel now) /\
    keeps P (post_iter fuel now).
Proof.
  intros Hs Hf training fuel now.
  unfold pre_fwd_exec, post_fwd_exec, pre_bwd_exec, post_bwd_exec, post_iter.
  repeat split; keeps_calls.
Qed.

(** What [__init__] establishes and the four primitive calls and the
    worker keep, holds in every reachable state. *)
Lemma reachable_keeps (P : monitor -> Prop) :
  (forall power, P (init power)) ->
  (forall st, P st -> P (worker_step st)) ->
  keeps P start ->
  (forall fuel now, keeps P (finish fuel now)) ->
  (forall power, keeps P (set_interval power)) ->
  keeps P show_mem_stats ->
  forall st, reachable st -> P st.
Proof.
  intros Hinit Hw Hs Hf Hi Hshow st Hr.
  induction Hr as [power|fuel c st st' _ IH H]; [apply Hinit|].
  destruct c as [|now|power| |tr now|tr now|tr now|tr now|now| |];
    unfold after in H; cbv beta iota in H;
    try (destruct (keeps_handlers P Hs Hf tr fuel now)
           as (K1 & K2 & K3 & K4 & _));
    try (destruct (keeps_handlers P Hs Hf true fuel now)
           as (_ & _ & _ & _ & K5)).
  - exact (Hs _ _ IH H).
  - exact (Hf _ _ _ _ IH H).
  - exact (Hi _ _ _ IH H).
  - exact (keeps_is_measuring P _ _ IH H).
  - exact (K1 _ _ IH H).
  - exact (K2 _ _ IH H).
  - exact (K3 _ _ IH H).
  - exact (K4 _ _ IH H).
  - exact (K5 _ _ IH H).
  - exact (Hshow _ _ IH H).
  - injection H as <-. apply Hw, IH.
Qed.

(** *** No negative usage is ever recorded *)

Lemma worker_task_max (flag : bool) (sample : Z) (q : list task) :
  Forall (fun t => 0 <= task_max t) q ->
  Forall (fun t => 0 <= task_max t) (fst (worker flag sample q)).
Proof.
  induction q as [|t q IH]; intros H; [constructor|].
  inversion H as [|? ? Ht Hq]; subst.
  destruct t as [|m|m|m]; simpl in *.
  - constructor; [simpl; lia|exact Hq].
  - constructor; [destruct flag; exact Ht|exact Hq].
  - constructor; [simpl; lia|exact Hq].
  - specialize (IH Hq). destruct (worker flag sample q); simpl in *.
    constructor; assumption.
Qed.

Lemma run_worker_task_max (n : nat) st :
  Forall (fun t => 0 <= task_max t) (executor st) ->
  Forall (fun t => 0 <= task_max t) (executor (run_worker n st)).
Proof.
  revert st; induction n as [|n IH]; intros st H; simpl; [exact H|].
  apply IH. rewrite worker_step_executor. apply worker_task_max, H.
Qed.

Lemma py_min_sub_nonneg (l : list Z) (m : Z) :
  py_min l = Some m -> Forall (fun u => 0 <= u) (map (fun elem => elem - m) l).
Proof.
  intros H. apply Forall_forall. intros u Hu.
  apply in_map_iff in Hu as (x & <- & Hx).
  pose proof (py_min_le _ _ H x Hx). lia.
Qed.

Lemma nonneg_finish (fuel : nat) (now : Z) : keeps nonneg (finish fuel now).
Proof.
  intros st st' [Ht Hm] H.
  destruct (keep_measuring st) eqn:Hk.
  - destruct (finish fuel now st) as [m st1|e st1|] eqn:E; simpl in H;
      try discriminate; injection H as ->.
    + destruct (finish_measuring_inv _ _ _ _ _ Hk E) as (h & n & _ & Hd & ->).
      pose proof (run_worker_task_max n (set_keep_measuring false st) Ht) as Ht'.
      split; [exact Ht'|].
      simpl. apply Forall_app. split; [exact Hm|].
      constructor; [|constructor].
      apply nth_error_In in Hd.
      exact (proj1 (Forall_forall _ _) Ht' _ Hd).
    + unfold finish in E. rewrite Hk in E. simpl in E.
      destruct (monitor_thread st) as [h|].
      * destruct (result fuel h (set_keep_measuring false st)) as [[r s2]|];
          discriminate.
      * injection E as _ <-. split; assumption.
  - rewrite (finish_idle _ _ _ Hk) in H. injection H as <-. split; assumption.
Qed.

Lemma nonneg_reachable st : reachable st -> nonneg st.
Proof.
  apply reachable_keeps.
  - intros power. split; constructor.
  - intros s [Ht Hm]. split.
    + rewrite worker_step_executor. apply worker_task_max, Ht.
    + rewrite worker_step_mem_stats. exact Hm.
  - intros s s' [Ht Hm] [= <-]. split; [|exact Hm].
    simpl. apply Forall_app. split; [exact Ht|].
    constructor; [simpl; lia|constructor].
  - apply nonneg_finish.
  - intros power s s' [Ht Hm] [= <-]. split; assumption.
  - intros s s' [Ht Hm]. unfold show_mem_stats.
    destruct (py_min (time_stamps s)) as [t0|]; simpl.
    + destruct (py_min (mem_stats s)) as [u0|] eqn:Eu; simpl; intros [= <-];
        (split; [exact Ht|]); simpl; [|exact Hm].
      apply py_min_sub_nonneg, Eu.
    + intros [= <-]. split; assumption.
Qed.

(** X1.  Whatever the provider returns, negative readings included, every
    entry of [mem_stats] is at least 0 in every reachable state: a task
    starts from 0 and only takes maxima, and [show_mem_stats] subtracts the
    least entry. *)
Theorem mem_stats_never_negative st :
  reachable st -> forall u, In u (mem_stats st) -> 0 <= u.
Proof.
  intros Hr. destruct (nonneg_reachable st Hr) as [_ Hm].
  exact (proj1 (Forall_forall _ _) Hm).
Qed.

(** *** The worker outside and at the end of a session *)

Lemma worker_idle_reads (flag : bool) (sample : Z) (q : list task) :
  forallb is_done q = true -> snd (worker flag sample q) = false.
Proof.
  induction q as [|t q IH]; [reflexivity|].
  destruct t; simpl; try discriminate.
  intros H. specialize (IH H). destruct (worker flag sample q); exact IH.
Qed.

Lemma worker_step_idle st :
  forallb is_done (executor st) = true -> worker_step st = st.
Proof.
  intros H. unfold worker_step.
  pose proof (worker_idle (keep_measuring st)
                (get_sys_memory_used (samples_taken st)) _ H) as E1.
  pose proof (worker_idle_reads (keep_measuring st)
                (get_sys_memory_used (samples_taken st)) _ H) as E2.
  destruct (worker _ _ _) as [q u]. simpl in *. subst.
  destruct st; reflexivity.
Qed.

(** X2.  On an idle monitor the worker thread has nothing to run: any
    number of its steps leaves the whole state as it is, and in particular
    calls the provider not once. *)
Theorem worker_rests_when_idle (n : nat) st :
  reachable st ->
  keep_measuring st = false ->
  run_worker n st = st.
Proof.
  intros Hr Hk. destruct (reachable_inv st Hr) as (_ & Hp & _).
  specialize (Hp Hk).
  induction n as [|n IH]; [reflexivity|].
  simpl. rewrite (worker_step_idle st Hp). exact IH.
Qed.

Lemma reads_left_queued (q : list task) :
  forallb is_queued q = true -> reads_left q = 0%nat.
Proof.
  destruct q as [|t q]; [reflexivity|].
  destruct t; simpl; try discriminate. reflexivity.
Qed.

Lemma reads_left_le_1 (q : list task) : (reads_left q <= 1)%nat.
Proof.
  induction q as [|t q IH]; simpl; [lia|]. destruct t; lia.
Qed.

(** With the flag down, a step of the worker that reads uses up the one
    reading left. *)
Lemma worker_reads_left (sample : Z) (q : list task) :
  ordered q = true ->
  (reads_left (fst (worker false sample q))
   + (if snd (worker false sample q) then 1 else 0))%nat = reads_left q.
Proof.
  induction q as [|t q IH]; [reflexivity|].
  destruct t as [|m|m|m]; simpl; intros Ho; try reflexivity.
  - rewrite (reads_left_queued _ Ho). reflexivity.
  - specialize (IH Ho). destruct (worker false sample q); simpl in *.
    exact IH.
Qed.

Lemma run_worker_reads_left (n : nat) st :
  keep_measuring st = false ->
  ordered (executor st) = true ->
  (samples_taken (run_worker n st) + reads_left (executor (run_worker n st))
   = samples_taken st + reads_left (executor st))%nat.
Proof.
  revert st; induction n as [|n IH]; intros st Hk Ho; [reflexivity|].
  simpl. rewrite IH.
  - rewrite worker_step_samples_taken, worker_step_executor, Hk.
    pose proof (worker_reads_left (get_sys_memory_used (samples_taken st))
                  _ Ho) as H.
    destruct (snd (worker false _ (executor st))); lia.
  - rewrite worker_step_keep_measuring. exact Hk.
  - rewrite worker_step_executor. apply worker_ordered, Ho.
Qed.

(** X3.  Stopping is cooperative and short: between the call of [finish]
    and its return the provider is called at most once more, namely when
    the task had passed the loop test already. *)
Theorem finish_reads_at_most_once (fuel : nat) (now : Z) st (m : Z) st' :
  reachable st ->
  keep_measuring st = true ->
  finish fuel now st = Ret m st' ->
  (samples_taken st <= samples_taken st' <= S (samples_taken st))%nat.
Proof.
  intros Hr Hk Hfin.
  destruct (reachable_inv st Hr) as (_ & _ & Ho & _).
  destruct (finish_measuring_inv _ _ _ _ _ Hk Hfin) as (h & n & _ & _ & ->).
  pose proof (run_worker_reads_left n (set_keep_measuring false st)
                eq_refl Ho) as H.
  simpl in *.
  pose proof (reads_left_le_1 (executor st)).
  pose proof (reads_left_le_1
                (executor (run_worker n (set_keep_measuring false st)))).
  (* the count never goes down *)
  assert (Hmono : forall k s, (samples_taken s <= samples_taken (run_worker k s))%nat).
  { clear. induction k as [|k IH]; intros s; simpl; [lia|].
    specialize (IH (worker_step s)).
    rewrite worker_step_samples_taken in IH.
    destruct (snd (worker _ _ _)); lia. }
  specialize (Hmono n (set_keep_measuring false st)). simpl in Hmono.
  lia.
Qed.

(** *** The future and the wait *)

Lemma finish_never_raises (fuel : nat) (now : Z) st (e : exn) st' :
  reachable st -> finish fuel now st <> Raise e st'.
Proof.
  intros Hr H. destruct (reachable_inv st Hr) as (Hf & _).
  destruct (finish_raise_inv _ _ _ _ _ H) as [Hk Hn].
  destruct (Hf Hk) as (h & Hh & _). congruence.
Qed.

Lemma reachable_run_worker (n : nat) st :
  reachable st -> reachable (run_worker n st).
Proof.
  revert st; induction n as [|n IH]; intros st Hr; simpl; [exact Hr|].
  apply IH. exact (reach_call 0 WorkerStep st _ Hr eq_refl).
Qed.





Lemma finish_then_ret_no_raise (fuel : nat) (now : Z) st (e : exn) s :
  reachable st -> (finish fuel now ;;; ret tt) st <> Raise e s.
Proof.
  intros Hr. unfold bind, ret.
  destruct (finish fuel now st) as [m s1|e1 s1|] eqn:E; try discriminate.
  exfalso. exact (finish_never_raises fuel now st e1 s1 Hr E).
Qed.

Lemma close_if_measuring_no_raise (fuel : nat) (now : Z) st (e : exn) s :
  reachable st ->
  (m <- is_measuring ;; if m then finish fuel now ;;; ret tt else ret tt) st
  <> Raise e s.
Proof.
  intros Hr. unfold bind at 1. unfold is_measuring.
  destruct (keep_measuring st).
  - apply finish_then_ret_no_raise, Hr.
  - discriminate.
Qed.

Lemma pre_exec_no_raise (fuel : nat) (now : Z) st (e : exn) s :
  reachable st -> pre_fwd_exec true fuel now st <> Raise e s.
Proof.
  intros Hr H.
  unfold pre_fwd_exec, bind, is_measuring, ret in H.
  destruct (keep_measuring st).
  - destruct (finish fuel now st) as [m s1|e1 s1|] eqn:Hf;
      try discriminate.
    exact (finish_never_raises fuel now st e1 s1 Hr Hf).
  - discriminate.
Qed.

(** X4.  While the monitor is measuring, its future is set and is a task
    of the pool, in every reachable state; so no call ever fails with the
    [AttributeError] of [None.result()]. *)
Theorem future_is_set_while_measuring (fuel : nat) (c : call) st st' :
  reachable st ->
  (keep_measuring st = true ->
   exists h t,
     monitor_thread st = Some h /\ nth_error (executor st) h = Some t) /\
  perform fuel c st <> Raise AttributeError st'.
Proof.
  intros Hr. split.
  - intros Hk. destruct (reachable_inv st Hr) as (Hf & _).
    destruct (Hf Hk) as (h & Hh & Hl). exists h.
    destruct (nth_error (executor st) h) as [t|] eqn:E; [eauto|].
    apply nth_error_None in E. lia.
  - destruct c as [|now|power| |tr now|tr now|tr now|tr now|now| |];
      cbn [perform].
    + rewrite start_Ret. discriminate.
    + apply finish_then_ret_no_raise, Hr.
    + unfold set_interval. discriminate.
    + unfold bind, is_measuring, ret. discriminate.
    + destruct tr; [apply pre_exec_no_raise, Hr|discriminate].
    + destruct tr; [apply finish_then_ret_no_raise, Hr|discriminate].
    + destruct tr; [apply (pre_exec_no_raise fuel now st), Hr|discriminate].
    + destruct tr; [apply close_if_measuring_no_raise, Hr|discriminate].
    + apply close_if_measuring_no_raise, Hr.
    + unfold show_mem_stats.
      destruct (py_min (time_stamps st)); simpl; [|discriminate].
      destruct (py_min (mem_stats _)); discriminate.
    + discriminate.
Qed.

(** *** One unfinished task at most *)

Lemma unfinished_worker (flag : bool) (sample : Z) (q : list task) :
  (unfinished (fst (worker flag sample q)) <= unfinished q)%nat.
Proof.
  unfold unfinished.
  induction q as [|t q IH]; [simpl; lia|].
  destruct t as [|m|m|m]; simpl; try lia.
  - destruct flag; simpl; lia.
  - destruct (worker flag sample q); simpl in *. exact IH.
Qed.

Lemma unfinished_run_worker (n : nat) st :
  (unfinished (executor (run_worker n st)) <= unfinished (executor st))%nat.
Proof.
  revert st; induction n as [|n IH]; intros st; simpl; [lia|].
  specialize (IH (worker_step st)). rewrite worker_step_executor in IH.
  pose proof (unfinished_worker (keep_measuring st)
                (get_sys_memory_used (samples_taken st)) (executor st)).
  lia.
Qed.

Lemma unfinished_done (q : list task) :
  forallb is_done q = true -> unfinished q = 0%nat.
Proof.
  unfold unfinished. induction q as [|t q IH]; [reflexivity|].
  destruct t; simpl; try discriminate. exact IH.
Qed.

Lemma unfinished_submit (q : list task) :
  unfinished (q ++ [Queued]) = S (unfinished q).
Proof.
  unfold unfinished. rewrite filter_app, length_app. simpl. lia.
Qed.

Lemma start_on_idle st st' :
  inv st -> keep_measuring st = false -> start st = Ret tt st' ->
  unfinished (executor st') = 1%nat.
Proof.
  intros (_ & Hp & _) Hk [= <-]. simpl.
  rewrite unfinished_submit, (unfinished_done _ (Hp Hk)). reflexivity.
Qed.

Lemma finish_unfinished (fuel : nat) (now : Z) :
  keeps (fun st => (unfinished (executor st) <= 1)%nat) (finish fuel now).
Proof.
  intros st st' HQ H.
  destruct (keep_measuring st) eqn:Hk.
  - destruct (finish fuel now st) as [m st1|e st1|] eqn:E; simpl in H;
      try discriminate; injection H as ->.
    + destruct (finish_measuring_inv _ _ _ _ _ Hk E) as (h & n & _ & _ & ->).
      simpl.
      pose proof (unfinished_run_worker n (set_keep_measuring false st)).
      simpl in *. lia.
    + unfold finish in E. rewrite Hk in E. simpl in E.
      destruct (monitor_thread st) as [h|].
      * destruct (result fuel h (set_keep_measuring false st)) as [[r s2]|];
          discriminate.
      * injection E as _ <-. exact HQ.
  - rewrite (finish_idle _ _ _ Hk) in H. injection H as <-. exact HQ.
Qed.

Lemma disciplined_reachable st : disciplined st -> reachable st.
Proof.
  induction 1 as [power|fuel c st st' _ IH _ H]; [apply reach_init|].
  exact (reach_call fuel c st st' IH H).
Qed.

(** A pre-phase handler of a training module calls [start] on an idle
    monitor, or stops at an exception of [finish]. *)
Lemma pre_exec_cases (fuel : nat) (now : Z) st st' :
  state_after (pre_fwd_exec true fuel now st) = Some st' ->
  (keep_measuring st = false /\ start st = Ret tt st') \/
  (keep_measuring st = true /\
   ((exists m s1, finish fuel now st = Ret m s1 /\ start s1 = Ret tt st') \/
    (exists e, finish fuel now st = Raise e st'))).
Proof.
  unfold pre_fwd_exec, is_measuring. unfold bind at 1.
  destruct (keep_measuring st).
  - intros H. right. split; [reflexivity|].
    unfold bind, ret in H.
    destruct (finish fuel now st) as [m s1|e s1|]; simpl in H.
    + left. exists m, s1. split; [reflexivity|].
      injection H as <-. apply start_Ret.
    + right. exists e. injection H as <-. reflexivity.
    + discriminate.
  - intros H. left. split; [reflexivity|].
    unfold bind, ret in H. simpl in H. injection H as <-. apply start_Ret.
Qed.

Lemma pre_exec_unfinished (fuel : nat) (now : Z) st st' :
  reachable st ->
  (unfinished (executor st) <= 1)%nat ->
  state_after (pre_fwd_exec true fuel now st) = Some st' ->
  (unfinished (executor st') <= 1)%nat.
Proof.
  intros Hr HQ H.
  destruct (pre_exec_cases fuel now st st' H)
    as [[Hk Hs]|[Hk [(m & s1 & Hf & Hs)|(e & Hf)]]].
  - rewrite (start_on_idle st st' (reachable_inv st Hr) Hk Hs). lia.
  - assert (Hi : inv s1).
    { apply (inv_finish fuel now st s1 (reachable_inv st Hr)).
      rewrite Hf. reflexivity. }
    destruct (finish_measuring_inv _ _ _ _ _ Hk Hf) as (h & n & _ & _ & E).
    assert (Hk1 : keep_measuring s1 = false) by (rewrite E; reflexivity).
    rewrite (start_on_idle s1 st' Hi Hk1 Hs). lia.
  - apply (finish_unfinished fuel now st st' HQ). rewrite Hf. reflexivity.
Qed.

(** The handlers that only close keep what [finish] keeps. *)
Lemma keeps_closers (P : monitor -> Prop) :
  (forall fuel now, keeps P (finish fuel now)) ->
  forall (training : bool) (fuel : nat) (now : Z),
    keeps P (finish fuel now ;;; ret tt) /\
    keeps P (post_fwd_exec training fuel now) /\
    keeps P (post_bwd_exec training fuel now) /\
    keeps P (post_iter fuel now).
Proof.
  intros Hf training fuel now.
  unfold post_fwd_exec, post_bwd_exec, post_iter.
  repeat split; keeps_calls.
Qed.

(** X5.  As long as [start] is only called on an idle monitor, which is
    how the handlers call it, the pool never holds more than one task that
    has not returned: no sampling task waits behind another. *)
Theorem one_unfinished_task_at_most st :
  disciplined st -> (unfinished (executor st) <= 1)%nat.
Proof.
  induction 1 as [power|fuel c st st' Hd IH Hc H];
    [unfold unfinished; simpl; lia|].
  pose proof (disciplined_reachable st Hd) as Hr.
  pose proof (finish_unfinished fuel) as HF.
  assert (HK : forall training now,
             keeps (fun s => (unfinished (executor s) <= 1)%nat)
                   (post_fwd_exec training fuel now) /\
             keeps (fun s => (unfinished (executor s) <= 1)%nat)
                   (post_bwd_exec training fuel now) /\
             keeps (fun s => (unfinished (executor s) <= 1)%nat)
                   (post_iter fuel now)).
  { intros training now.
    apply (keeps_closers (fun s => (unfinished (executor s) <= 1)%nat)).
    intros f n. apply finish_unfinished. }
  destruct c as [|now|power| |tr now|tr now|tr now|tr now|now| |];
    unfold after in H; cbv beta iota in H.
  - rewrite (start_on_idle st st' (reachable_inv st Hr) (Hc eq_refl));
      [lia|]. rewrite start_Ret in H |- *. injection H as <-. reflexivity.
  - exact (HF now st st' IH H).
  - injection H as <-. exact IH.
  - injection H as <-. exact IH.
  - destruct tr; [|injection H as <-; exact IH].
    exact (pre_exec_unfinished fuel now st st' Hr IH H).
  - exact (proj1 (HK tr now) st st' IH H).
  - destruct tr; [|injection H as <-; exact IH].
    exact (pre_exec_unfinished fuel now st st' Hr IH H).
  - exact (proj1 (proj2 (HK tr now)) st st' IH H).
  - exact (proj2 (proj2 (HK true now)) st st' IH H).
  - revert H. unfold show_mem_stats.
    destruct (py_min (time_stamps st)); simpl;
      [destruct (py_min (mem_stats _))|]; simpl; intros [= <-]; exact IH.
  - injection H as <-. rewrite worker_step_executor.
    pose proof (unfinished_worker (keep_measuring st)
                  (get_sys_memory_used (samples_taken st)) (executor st)).
    lia.
Qed.

(** *** Sessions driven by the handlers *)

Lemma inv_run_worker (n : nat) st : inv st -> inv (run_worker n st).
Proof.
  revert st; induction n as [|n IH]; intros st H; simpl; [exact H|].
  apply IH, inv_worker_step, H.
Qed.

Lemma run_worker_samples_mono (n : nat) st :
  (samples_taken st <= samples_taken (run_worker n st))%nat.
Proof.
  revert st; induction n as [|n IH]; intros st; simpl; [lia|].
  specialize (IH (worker_step st)).
  rewrite worker_step_samples_taken in IH.
  destruct (snd (worker _ _ _)); lia.
Qed.

(** A session opened on an idle monitor and closed by [finish]. *)
Lemma session_closes (fuel : nat) (now : Z) st st1 (n : nat) :
  inv st ->
  keep_measuring st = false ->
  start st = Ret tt st1 ->
  (2 * length (executor st1) <= fuel)%nat ->
  exists m st',
    finish fuel now (run_worker n st1) = Ret m st' /\
    keep_measuring (run_worker n st1) = true /\
    m = measure_usage
          (readings (samples_taken st) (samples_taken st' - samples_taken st)) /\
    keep_measuring st' = false /\
    time_stamps st' = time_stamps st ++ [now] /\
    mem_stats st' = mem_stats st ++ [m] /\
    length (executor st') = S (length (executor st)) /\
    inv st'.
Proof.
  intros Hi Hidle Hs Hfuel.
  pose proof Hi as (_ & Hp & _).
  destruct (in_session_start st st1 (Hp Hidle) Hs) as (Hses & Hk1 & Hh1 & Hl1).
  destruct (run_worker_view n st1) as (V1 & V2 & _ & V4 & V5 & V6).
  assert (Hk : keep_measuring (run_worker n st1) = true) by congruence.
  assert (Hi1 : inv (run_worker n st1)).
  { apply inv_run_worker. apply (inv_start st st1 Hi). rewrite Hs. reflexivity. }
  destruct (finish_measuring fuel now (run_worker n st1)
              (length (executor st))) as (m & st' & Hfin); auto.
  - congruence.
  - rewrite V6, Hl1. lia.
  - rewrite V6. exact Hfuel.
  - destruct (finish_measuring_inv _ _ _ _ _ Hk Hfin) as (h & k & Hh & Hd & E).
    assert (h = length (executor st)) by congruence. subst h.
    set (st2 := run_worker k (set_keep_measuring false (run_worker n st1))) in *.
    assert (Hses2 : in_session (samples_taken st) st2).
    { apply in_session_run_worker.
      destruct (in_session_run_worker _ n _ Hses) as (d & t & H1 & H2 & H3 & H4).
      exists d, t. auto. }
    assert (Hl2 : length (executor st2) = S (length (executor st))).
    { destruct (run_worker_view k (set_keep_measuring false (run_worker n st1)))
        as (_ & _ & _ & _ & _ & L).
      unfold st2. rewrite L. simpl. rewrite V6. exact Hl1. }
    pose proof (in_session_done _ _ _ _ Hses2 Hl2 Hd) as Hm.
    assert (Hts : time_stamps st1 = time_stamps st /\ mem_stats st1 = mem_stats st).
    { pose proof Hs as Hs'. rewrite start_Ret in Hs'. injection Hs' as Hs'.
      rewrite <- Hs'. split; reflexivity. }
    destruct Hts as [Hts Hms].
    exists m, st'. split; [exact Hfin|]. split; [exact Hk|].
    assert (Hi' : inv st').
    { apply (inv_finish fuel now _ st' Hi1). rewrite Hfin. reflexivity. }
    split; [rewrite E; exact Hm|].
    split; [rewrite E; reflexivity|].
    split; [rewrite E; simpl; rewrite V4, Hts; reflexivity|].
    split; [rewrite E; simpl; rewrite V5, Hms; reflexivity|].
    split; [rewrite E; exact Hl2|exact Hi'].
Qed.

Lemma pre_exec_idle (fuel : nat) (now : Z) st :
  keep_measuring st = false ->
  pre_fwd_exec true fuel now st = start st /\
  pre_bwd_exec true fuel now st = start st.
Proof.
  intros Hk. unfold pre_fwd_exec, pre_bwd_exec, bind, is_measuring, ret.
  rewrite Hk. split; reflexivity.
Qed.

Lemma closers_measuring (fuel : nat) (now : Z) st (m : Z) st' :
  keep_measuring st = true ->
  finish fuel now st = Ret m st' ->
  post_fwd_exec true fuel now st = Ret tt st' /\
  post_bwd_exec true fuel now st = Ret tt st' /\
  post_iter fuel now st = Ret tt st'.
Proof.
  intros Hk Hfin.
  unfold post_fwd_exec, post_bwd_exec, post_iter, bind, is_measuring, ret.
  rewrite Hk, Hfin. repeat split.
Qed.

(** X6.  One phase under the handlers.  On an idle monitor a pre-phase
    handler of a training module opens a session; whatever the worker does
    meanwhile, the post-phase handler (or [post_iter]) closes it, leaves
    the monitor idle and appends one pair: its clock reading and the
    maximum, from 0, of the readings taken during the phase. *)
Theorem handlers_record_phase_maximum
    (fuel : nat) (now0 now : Z) st (n : nat) :
  reachable st ->
  keep_measuring st = false ->
  (2 * S (length (executor st)) <= fuel)%nat ->
  exists st1 m st2,
    pre_fwd_exec true fuel now0 st = Ret tt st1 /\
    pre_bwd_exec true fuel now0 st = Ret tt st1 /\
    post_fwd_exec true fuel now (run_worker n st1) = Ret tt st2 /\
    post_bwd_exec true fuel now (run_worker n st1) = Ret tt st2 /\
    post_iter fuel now (run_worker n st1) = Ret tt st2 /\
    m = measure_usage
          (readings (samples_taken st) (samples_taken st2 - samples_taken st)) /\
    keep_measuring st2 = false /\
    time_stamps st2 = time_stamps st ++ [now] /\
    mem_stats st2 = mem_stats st ++ [m].
Proof.
  intros Hr Hk Hfuel.
  destruct (pre_exec_idle fuel now0 st Hk) as [P1 P2].
  destruct (session_closes fuel now st _ n (reachable_inv st Hr) Hk
              (start_Ret st))
    as (m & st2 & Hfin & Hk1 & Hm & Hk2 & Hts & Hms & _).
  { simpl. rewrite length_app. simpl. lia. }
  destruct (closers_measuring fuel now _ m st2 Hk1 Hfin) as (C1 & C2 & C3).
  eexists. exists m, st2.
  rewrite P1, P2, start_Ret.
  repeat split; assumption.
Qed.

(** X7.  One training iteration under the handlers: [pre_fwd_exec],
    [post_fwd_exec], [pre_bwd_exec], [post_bwd_exec], [post_iter], with
    any worker steps during the two phases.  It records exactly two pairs,
    the forward one before the backward one, each with the maximum of its
    own phase, and the closing [post_iter] finds nothing to do. *)
Theorem iteration_records_two_entries
    (fuel : nat) (t0 t1 t2 t3 t4 : Z) st (n1 n2 : nat) :
  reachable st ->
  keep_measuring st = false ->
  (2 * S (S (length (executor st))) <= fuel)%nat ->
  exists s1 s2 s3 s4 m1 m2,
    pre_fwd_exec true fuel t0 st = Ret tt s1 /\
    post_fwd_exec true fuel t1 (run_worker n1 s1) = Ret tt s2 /\
    pre_bwd_exec true fuel t2 s2 = Ret tt s3 /\
    post_bwd_exec true fuel t3 (run_worker n2 s3) = Ret tt s4 /\
    post_iter fuel t4 s4 = Ret tt s4 /\
    keep_measuring s4 = false /\
    time_stamps s4 = time_stamps st ++ [t1; t3] /\
    mem_stats s4 = mem_stats st ++ [m1; m2] /\
    m1 = measure_usage
           (readings (samples_taken st) (samples_taken s2 - samples_taken st)) /\
    m2 = measure_usage
           (readings (samples_taken s2) (samples_taken s4 - samples_taken s2)).
Proof.
  intros Hr Hk Hfuel.
  destruct (pre_exec_idle fuel t0 st Hk) as [P1 _].
  destruct (session_closes fuel t1 st _ n1 (reachable_inv st Hr) Hk
              (start_Ret st))
    as (m1 & s2 & Hf1 & Hk1 & Hm1 & Hk2 & Hts2 & Hms2 & Hl2 & Hi2).
  { simpl. rewrite length_app. simpl. lia. }
  destruct (closers_measuring fuel t1 _ m1 s2 Hk1 Hf1) as (C1 & _ & _).
  destruct (pre_exec_idle fuel t2 s2 Hk2) as [_ P2].
  destruct (session_closes fuel t3 s2 _ n2 Hi2 Hk2 (start_Ret s2))
    as (m2 & s4 & Hf2 & Hk3 & Hm2 & Hk4 & Hts4 & Hms4 & _).
  { simpl. rewrite length_app. simpl. lia. }
  destruct (closers_measuring fuel t3 _ m2 s4 Hk3 Hf2) as (_ & C2 & _).
  eexists. exists s2. eexists. exists s4, m1, m2.
  rewrite P1, P2, !start_Ret.
  split; [reflexivity|]. split; [exact C1|].
  split; [reflexivity|]. split; [exact C2|].
  split.
  { unfold post_iter, bind, is_measuring, ret. rewrite Hk4. reflexivity. }
  split; [exact Hk4|].
  rewrite Hts4, Hms4, Hts2, Hms2, <- !app_assoc.
  repeat split; assumption.
Qed.

(** *** A second [start] without a [finish] *)

Lemma worker_open_task (sample : Z) (q0 : list task) (a : task) :
  forallb is_done q0 = true ->
  is_done a = false ->
  exists a', fst (worker true sample (q0 ++ [a])) = q0 ++ [a'] /\
             is_done a' = false.
Proof.
  intros H0 Ha. rewrite (worker_skips_done _ _ _ _ H0). simpl.
  destruct a; try discriminate; simpl; eexists; split; reflexivity.
Qed.

Lemma run_worker_open_task (n : nat) st (q0 : list task) (a : task) :
  keep_measuring st = true ->
  forallb is_done q0 = true ->
  executor st = q0 ++ [a] ->
  is_done a = false ->
  exists a', executor (run_worker n st) = q0 ++ [a'] /\ is_done a' = false.
Proof.
  revert st a; induction n as [|n IH]; intros st a Hk H0 He Ha; simpl.
  - exists a. auto.
  - destruct (worker_open_task (get_sys_memory_used (samples_taken st))
                q0 a H0 Ha) as (a1 & E1 & Ha1).
    apply (IH (worker_step st) a1); auto.
    + rewrite worker_step_keep_measuring. exact Hk.
    + rewrite worker_step_executor, Hk, He. exact E1.
Qed.

Lemma stale_pair_worker (flag : bool) (sample : Z) (q0 q : list task) :
  forallb is_done q0 = true ->
  stale_pair flag q0 q ->
  stale_pair flag q0 (fst (worker flag sample q)).
Proof.
  intros H0 (a & b & -> & H).
  rewrite (worker_skips_done _ _ _ _ H0).
  destruct H as [[Ha ->]|(-> & Ha & Hb)].
  - destruct a as [|m|m|m]; try discriminate; simpl.
    + exists (AtLoop 0), Queued. split; [reflexivity|]. left. auto.
    + destruct flag.
      * exists (InBody m), Queued. split; [reflexivity|]. left. auto.
      * exists (Done m), Queued. split; [reflexivity|]. right. auto.
    + exists (AtLoop (Z.max m sample)), Queued.
      split; [reflexivity|]. left. auto.
  - destruct a as [|m|m|m]; try discriminate.
    destruct Hb as [->|[->| ->]]; simpl.
    + exists (Done m), (AtLoop 0). split; [reflexivity|]. right. auto.
    + exists (Done m), (Done 0). split; [reflexivity|]. right. auto.
    + exists (Done m), (Done 0). split; [reflexivity|]. right. auto.
Qed.

Lemma stale_pair_run_worker (n : nat) st (q0 : list task) :
  forallb is_done q0 = true ->
  stale_pair (keep_measuring st) q0 (executor st) ->
  stale_pair (keep_measuring st) q0 (executor (run_worker n st)).
Proof.
  revert st; induction n as [|n IH]; intros st H0 H; simpl; [exact H|].
  rewrite <- (worker_step_keep_measuring st).
  apply IH; [exact H0|].
  rewrite worker_step_keep_measuring, worker_step_executor.
  apply stale_pair_worker; assumption.
Qed.

(** X8.  [start] called twice without a [finish] loses the first session.
    The second task waits in the pool behind the first, which runs until
    the flag goes down; [finish] then waits for the second task, which
    finds the flag down and returns 0.  So [finish] returns 0 and records
    0, whatever readings the first task took. *)
Theorem second_start_loses_the_session
    (fuel : nat) (now : Z) st s1 s2 (n k : nat) :
  reachable st ->
  keep_measuring st = false ->
  start st = Ret tt s1 ->
  start (run_worker n s1) = Ret tt s2 ->
  (2 * length (executor s2) <= fuel)%nat ->
  exists st',
    finish fuel now (run_worker k s2) = Ret 0 st' /\
    keep_measuring st' = false /\
    time_stamps st' = time_stamps st ++ [now] /\
    mem_stats st' = mem_stats st ++ [0].
Proof.
  intros Hr Hk Hs1 Hs2 Hfuel.
  destruct (reachable_inv st Hr) as (_ & Hp & _).
  specialize (Hp Hk).
  rewrite start_Ret in Hs1. injection Hs1 as <-.
  set (s1 := Monitor true _ _ _ _ _ _) in *.
  destruct (run_worker_open_task n s1 (executor st) Queued)
    as (a & Ea & Ha); auto.
  destruct (run_worker_view n s1) as (_ & _ & _ & V4 & V5 & _).
  rewrite start_Ret in Hs2. injection Hs2 as <-.
  set (s2 := Monitor true (executor (run_worker n s1) ++ [Queued]) _ _ _ _ _)
    in *.
  assert (E2 : executor s2 = executor st ++ [a; Queued]).
  { unfold s2. cbn [executor]. rewrite Ea, <- app_assoc. reflexivity. }
  assert (Hpair : stale_pair true (executor st) (executor s2)).
  { exists a, Queued. split; [exact E2|]. left. auto. }
  pose proof (stale_pair_run_worker k s2 (executor st) Hp Hpair) as Hpk.
  destruct (run_worker_view k s2) as (W1 & W2 & _ & W4 & W5 & W6).
  assert (Hkk : keep_measuring (run_worker k s2) = true) by exact W1.
  assert (Hh : monitor_thread (run_worker k s2)
               = Some (S (length (executor st)))).
  { rewrite W2. unfold s2. cbn [monitor_thread].
    rewrite Ea, length_app. simpl. f_equal. lia. }
  assert (Hlen : length (executor (run_worker k s2))
                 = S (S (length (executor st)))).
  { rewrite W6, E2, length_app. simpl. lia. }
  destruct (finish_measuring fuel now (run_worker k s2)
              (S (length (executor st)))) as (m & st' & Hfin); auto.
  - lia.
  - rewrite W6. exact Hfuel.
  - destruct (finish_measuring_inv _ _ _ _ _ Hkk Hfin)
      as (h & j & Hh' & Hd & E).
    assert (h = S (length (executor st))) by congruence. subst h.
    assert (Hpj : stale_pair false (executor st)
              (executor (run_worker j (set_keep_measuring false
                                         (run_worker k s2))))).
    { apply (stale_pair_run_worker j
               (set_keep_measuring false (run_worker k s2)) _ Hp).
      simpl. destruct Hpk as (x & y & Exy & [Hxy|(Hc & _)]);
        [|discriminate].
      exists x, y. split; [exact Exy|]. left. exact Hxy. }
    destruct Hpj as (x & y & Exy & Hxy).
    rewrite Exy in Hd.
    rewrite nth_error_app2 in Hd by lia.
    replace (S (length (executor st)) - length (executor st))%nat
      with 1%nat in Hd by lia.
    simpl in Hd. injection Hd as ->.
    assert (Hm : m = 0).
    { destruct Hxy as [[_ Hy]|(_ & _ & [Hy|[Hy|Hy]])];
        try discriminate; congruence. }
    subst m. exists st'. split; [exact Hfin|].
    rewrite E. unfold finished.
    cbn [keep_measuring time_stamps mem_stats].
    rewrite W4, W5. unfold s2. cbn [time_stamps mem_stats].
    rewrite V4, V5. repeat split.
Qed.

(** *** What [show_mem_stats] keeps *)

Lemma show_mem_stats_Ret_inv st st' :
  show_mem_stats st = Ret tt st' ->
  exists t0 u0,
    py_min (time_stamps st) = Some t0 /\
    py_min (mem_stats st) = Some u0 /\
    st' = normalized t0 u0 st.
Proof.
  unfold show_mem_stats.
  destruct (py_min (time_stamps st)) as [t0|] eqn:Et; [|discriminate].
  simpl. destruct (py_min (mem_stats st)) as [u0|] eqn:Eu; [|discriminate].
  intros [= <-]. exists t0, u0. repeat split.
Qed.

Lemma nth_map_sub (l : list Z) (c : Z) (i : nat) :
  (i < length l)%nat ->
  nth i (map (fun elem => elem - c) l) 0 = nth i l 0 - c.
Proof.
  intros Hi.
  rewrite (nth_indep _ 0 (0 - c)) by (rewrite length_map; exact Hi).
  exact (map_nth (fun elem => elem - c) l 0 i).
Qed.

(** X9.  [show_mem_stats] only moves the origin: the lists keep their
    lengths, and the difference between any two timestamps, and between
    any two usages, is what it was; everything else in the monitor is
    untouched. *)
Theorem show_mem_stats_keeps_differences st st' (i j : nat) :
  show_mem_stats st = Ret tt st' ->
  (i < length (time_stamps st))%nat ->
  (j < length (time_stamps st))%nat ->
  (i < length (mem_stats st))%nat ->
  (j < length (mem_stats st))%nat ->
  length (time_stamps st') = length (time_stamps st) /\
  length (mem_stats st') = length (mem_stats st) /\
  nth i (time_stamps st') 0 - nth j (time_stamps st') 0
    = nth i (time_stamps st) 0 - nth j (time_stamps st) 0 /\
  nth i (mem_stats st') 0 - nth j (mem_stats st') 0
    = nth i (mem_stats st) 0 - nth j (mem_stats st) 0 /\
  keep_measuring st' = keep_measuring st /\
  executor st' = executor st /\
  monitor_thread st' = monitor_thread st /\
  interval st' = interval st.
Proof.
  intros H Hi Hj Hi' Hj'.
  destruct (show_mem_stats_Ret_inv st st' H) as (t0 & u0 & _ & _ & ->).
  simpl. rewrite !length_map, !nth_map_sub by assumption.
  repeat split; lia.
Qed.

End Tracer.

(** ** Runs on the scenario provider

    The monitor is created with [power = 10]; one [start] makes it
    [Monitor true [Queued] (Some 0) 10 [] [] 0]. *)

Lemma session_open_reachable :
  reachable scenario_provider (Monitor true [Queued] (Some 0%nat) 10 [] [] 0).
Proof.
  apply (reach_call scenario_provider 0 Start (init 10));
    [apply reach_init|reflexivity].
Qed.

(** C1, the claim as stated fails: two [start]s in a row leave both lists
    empty, and the [finish] that follows records one entry, not two. *)
Lemma start_twice_records_nothing :
  exists st1 st2 st3,
    start (init 10) = Ret tt st1 /\ keep_measuring st1 = true /\
    start st1 = Ret tt st2 /\
    time_stamps st2 = [] /\ mem_stats st2 = [] /\
    length (mem_stats st2) <> S (length (mem_stats st1)) /\
    finish scenario_provider 4 7 st2 = Ret 0 st3 /\
    time_stamps st3 = [7] /\ mem_stats st3 = [0].
Proof.
  exists (Monitor true [Queued] (Some 0%nat) 10 [] [] 0),
         (Monitor true [Queued; Queued] (Some 1%nat) 10 [] [] 0),
         (Monitor false [Done 0; Done 0] None 10 [7] [0] 0).
  repeat split; try reflexivity. simpl. discriminate.
Qed.

(** C1 (amended), on a run: [start], then [pre_fwd_exec] of a training
    module, records the stale session and leaves the monitor measuring. *)
Lemma pre_exec_closes_stale_session_run :
  exists st1 st2,
    start (init 10) = Ret tt st1 /\
    pre_fwd_exec scenario_provider true 2 7 st1 = Ret tt st2 /\
    time_stamps st2 = [7] /\ mem_stats st2 = [0] /\
    keep_measuring st2 = true.
Proof.
  exists (Monitor true [Queued] (Some 0%nat) 10 [] [] 0).
  destruct (pre_exec_closes_stale_session scenario_provider 2 7
              (Monitor true [Queued] (Some 0%nat) 10 [] [] 0)
              session_open_reachable eq_refl)
    as (_ & m & s1 & s2 & Hfin & _ & Hfwd & _ & Hts & Hms & Hk & _).
  - simpl. lia.
  - exists s2. vm_compute in Hfin. injection Hfin as Hm _. subst m.
    repeat split; assumption.
Defined.

(** C2, on a monitor just created. *)
Lemma finish_when_idle_fresh :
  keep_measuring (init 10) = false /\
  finish scenario_provider 0 7 (init 10) = Ret 0 (init 10).
Proof.
  split; [reflexivity|].
  exact (proj1 (finish_when_idle scenario_provider 0 7 10 (init 10) eq_refl)).
Defined.



(** C6, the example of the specification. *)
Lemma show_mem_stats_example :
  show_mem_stats (Monitor false [] None 10 [5; 8; 10] [200; 150; 300] 0) =
  Ret tt (Monitor false [] None 10 [0; 3; 5] [50; 0; 150] 0).
Proof.
  destruct (show_mem_stats_normalizes
              (Monitor false [] None 10 [5; 8; 10] [200; 150; 300] 0))
    as (t0 & u0 & _ & _ & Hs & Hex); try (simpl; discriminate).
  destruct (Hex eq_refl eq_refl) as [Ht Hu].
  rewrite Hs.
  cbn [keep_measuring executor monitor_thread interval time_stamps mem_stats
       samples_taken] in *.
  rewrite Ht, Hu. reflexivity.
Defined.

(** C7, on a monitor just created. *)
Lemma show_mem_stats_fresh_raises :
  time_stamps (init 10) = [] /\
  show_mem_stats (init 10) = Raise ValueError (init 10).
Proof.
  split; [reflexivity|].
  exact (show_mem_stats_empty_raises (init 10) eq_refl).
Defined.

(** C8, on a run: after [start], a [finish] keeps the lengths equal and a
    second [start] keeps the lists. *)
Lemma series_lengths_agree_run :
  exists st' st'',
    after scenario_provider 2 (Finish 7)
          (Monitor true [Queued] (Some 0%nat) 10 [] [] 0) = Some st' /\
    length (time_stamps st') = length (mem_stats st') /\
    after scenario_provider 0 Start
          (Monitor true [Queued] (Some 0%nat) 10 [] [] 0) = Some st'' /\
    length (time_stamps st'') = 0%nat /\ length (mem_stats st'') = 0%nat.
Proof.
  destruct (series_lengths_agree scenario_provider
              (Monitor true [Queued] (Some 0%nat) 10 [] [] 0)
              session_open_reachable) as [_ H].
  exists (Monitor false [Done 0] None 10 [7] [0] 0),
         (Monitor true [Queued; Queued] (Some 1%nat) 10 [] [] 0).
  split; [reflexivity|].
  split; [exact (proj1 (H 2%nat (Finish 7) _ eq_refl))|].
  split; [reflexivity|].
  exact (proj2 (H 0%nat Start _ eq_refl) eq_refl).
Defined.

(** C9, the claim as stated fails: [post_iter] has no training flag to
    look at; on a monitor left measuring by [pre_fwd_exec] it finishes the
    session and records an entry, whatever the mode of the module. *)
Lemma post_iter_finishes_outside_training :
  exists st st',
    pre_fwd_exec scenario_provider true 0 3 (init 10) = Ret tt st /\
    keep_measuring st = true /\ mem_stats st = [] /\
    post_iter scenario_provider 2 7 st = Ret tt st' /\
    keep_measuring st' = false /\ mem_stats st' = [0] /\
    st' <> st.
Proof.
  exists (Monitor true [Queued] (Some 0%nat) 10 [] [] 0),
         (Monitor false [Done 0] None 10 [7] [0] 0).
  repeat split; try reflexivity. discriminate.
Qed.

(** C10, on the example of the specification. *)
Lemma show_mem_stats_twice_example :
  show_mem_stats (Monitor false [] None 10 [5; 8; 10] [200; 150; 300] 0) =
  Ret tt (Monitor false [] None 10 [0; 3; 5] [50; 0; 150] 0) /\
  show_mem_stats (Monitor false [] None 10 [0; 3; 5] [50; 0; 150] 0) =
  Ret tt (Monitor false [] None 10 [0; 3; 5] [50; 0; 150] 0).
Proof.
  destruct (show_mem_stats_idempotent
              (Monitor false [] None 10 [5; 8; 10] [200; 150; 300] 0))
    as (st1 & H1 & _ & _ & H2); try (simpl; discriminate).
  pose proof H1 as E. vm_compute in E. injection E as <-.
  split; [exact H1|exact H2].
Defined.

(** ** [get_memory_info] *)

Section MemInfoFacts.

Import MemInfo.

Variable int : string -> option Z.

Lemma getitem_setitem_same (key : string) (v : Z) (d : dict) :
  getitem key (setitem key v d) = Some v.
Proof.
  induction d as [|[k w] d IH]; simpl.
  - rewrite String.eqb_refl. reflexivity.
  - destruct (String.eqb key k) eqn:E; simpl; rewrite E; auto.
Qed.

Lemma getitem_setitem_other (key key' : string) (v : Z) (d : dict) :
  key <> key' -> getitem key (setitem key' v d) = getitem key d.
Proof.
  intros Hne. induction d as [|[k w] d IH]; simpl.
  - apply String.eqb_neq in Hne. rewrite Hne. reflexivity.
  - destruct (String.eqb key' k) eqn:E; simpl.
    + apply String.eqb_eq in E. subst k.
      apply String.eqb_neq in Hne. rewrite Hne. reflexivity.
    + rewrite IH. reflexivity.
Qed.

Lemma read_lines_app (d : dict) (l1 l2 : list (list string)) :
  read_lines int d (l1 ++ l2) =
  match read_lines int d l1 with
  | inl e => inl e
  | inr d' => read_lines int d' l2
  end.
Proof.
  revert d; induction l1 as [|fields l1 IH]; intros d; simpl; [reflexivity|].
  destruct (read_line int d fields); [reflexivity|apply IH].
Qed.

(** Reading lines that do not begin with [key] leaves its entry alone. *)
Lemma read_lines_other (key : string) (d d' : dict) (lines : list (list string)) :
  read_lines int d lines = inr d' ->
  (forall fields, In fields lines -> hd_error fields <> Some key) ->
  getitem key d' = getitem key d.
Proof.
  revert d; induction lines as [|fields lines IH]; intros d; simpl.
  - intros [= <-] _. reflexivity.
  - destruct (read_line int d fields) as [e|d1] eqn:E; [discriminate|].
    intros H Hno. rewrite (IH d1 H) by (intros f Hf; apply Hno; auto).
    unfold read_line in E.
    destruct fields as [|f0 [|f1 rest]]; try discriminate.
    destruct (int f1); [|discriminate]. injection E as <-.
    apply getitem_setitem_other. intros ->.
    apply (Hno (f0 :: f1 :: rest)); [left|]; reflexivity.
Qed.

(** A key is absent from the dict exactly when no line begins with it. *)
Lemma read_lines_absent (key : string) (d d' : dict) (lines : list (list string)) :
  read_lines int d lines = inr d' ->
  getitem key d' = None ->
  getitem key d = None /\
  forall fields, In fields lines -> hd_error fields <> Some key.
Proof.
  revert d; induction lines as [|fields lines IH]; intros d; simpl.
  - intros [= <-] H. split; [exact H|]. intros f [].
  - destruct (read_line int d fields) as [e|d1] eqn:E; [discriminate|].
    intros H Hn. destruct (IH d1 H Hn) as [H1 Hrest].
    unfold read_line in E.
    destruct fields as [|f0 [|f1 rest]]; try discriminate.
    destruct (int f1); [|discriminate]. injection E as <-.
    destruct (String.eqb key f0) eqn:Ek.
    + apply String.eqb_eq in Ek. subst f0.
      rewrite getitem_setitem_same in H1. discriminate.
    + apply String.eqb_neq in Ek.
      rewrite (getitem_setitem_other _ _ _ _ Ek) in H1.
      split; [exact H1|].
      intros f [<-|Hf]; [simpl; congruence|auto].
Qed.

(** Every figure of the dict is a number of KiB times 1024. *)
Lemma setitem_values (P : Z -> Prop) (key : string) (v : Z) (d : dict) :
  P v -> Forall (fun kv => P (snd kv)) d ->
  Forall (fun kv => P (snd kv)) (setitem key v d).
Proof.
  intros Hv. induction 1 as [|[k w] d Hw Hd IH]; simpl.
  - constructor; [exact Hv|constructor].
  - destruct (String.eqb key k); constructor; auto.
Qed.

Lemma getitem_values (P : Z -> Prop) (key : string) (v : Z) (d : dict) :
  Forall (fun kv => P (snd kv)) d -> getitem key d = Some v -> P v.
Proof.
  induction 1 as [|[k w] d Hw Hd IH]; simpl; [discriminate|].
  destruct (String.eqb key k); [intros [= <-]; exact Hw|exact IH].
Qed.

Lemma read_lines_values (d d' : dict) (lines : list (list string)) :
  read_lines int d lines = inr d' ->
  Forall (fun kv => (1024 | snd kv)) d ->
  Forall (fun kv => (1024 | snd kv)) d'.
Proof.
  revert d; induction lines as [|fields lines IH]; intros d; simpl.
  - intros [= <-] H. exact H.
  - destruct (read_line int d fields) as [e|d1] eqn:E; [discriminate|].
    intros H Hd. apply (IH d1 H).
    unfold read_line in E.
    destruct fields as [|f0 [|f1 rest]]; try discriminate.
    destruct (int f1) as [n|]; [|discriminate]. injection E as <-.
    apply setitem_values; [|exact Hd]. exists n. reflexivity.
Qed.

(** X10.  The file is read as Python fills a dict: when several lines
    begin with the same key the last one counts, and the figure stored is
    the number of the line times 1024. *)
Theorem meminfo_last_line_wins
    (before after : list (list string)) (key field : string)
    (rest : list string) (n : Z) (mems : dict) :
  read_lines int [] (before ++ (key :: field :: rest) :: after) = inr mems ->
  int field = Some n ->
  (forall fields, In fields after -> hd_error fields <> Some key) ->
  getitem key mems = Some (n * 1024).
Proof.
  intros H Hint Hafter. rewrite read_lines_app in H.
  destruct (read_lines int [] before) as [e|d1]; [discriminate|].
  simpl in H. rewrite Hint in H.
  rewrite (read_lines_other key _ _ _ H Hafter).
  apply getitem_setitem_same.
Qed.

Lemma read_lines_error (d : dict) (lines : list (list string))
    (e : provider_exn) :
  read_lines int d lines = inl e ->
  (e = IndexError /\ exists fields, In fields lines /\ (length fields < 2)%nat) \/
  (e = ValueError /\ exists f0 f1 rest,
      In (f0 :: f1 :: rest) lines /\ int f1 = None).
Proof.
  revert d; induction lines as [|fields lines IH]; intros d; simpl;
    [discriminate|].
  destruct (read_line int d fields) as [e1|d1] eqn:E.
  - intros [= <-]. unfold read_line in E.
    destruct fields as [|f0 [|f1 rest]].
    + injection E as <-. left. split; [reflexivity|].
      exists []. split; [left; reflexivity|simpl; lia].
    + injection E as <-. left. split; [reflexivity|].
      exists [f0]. split; [left; reflexivity|simpl; lia].
    + destruct (int f1) eqn:Ei; [discriminate|]. injection E as <-.
      right. split; [reflexivity|].
      exists f0, f1, rest. split; [left; reflexivity|exact Ei].
  - intros H. destruct (IH d1 H) as [(-> & f & Hf & Hl)|(-> & f0 & f1 & r & Hf & Hi)].
    + left. split; [reflexivity|]. exists f. auto.
    + right. split; [reflexivity|]. exists f0, f1, r. auto.
Qed.

Lemma get_memory_info_read (lines : list (list string)) (vm : svmem)
    (mems : dict) :
  read_lines int [] lines = inr mems ->
  (complete mems /\ get_memory_info int (Some lines) vm = inl NameError) \/
  (exists key,
      In key ["MemTotal:"; "MemFree:"; "Cached:"; "Buffers:"]%string /\
      getitem key mems = None /\
      get_memory_info int (Some lines) vm = inl (KeyError key)).
Proof.
  intros Hr. unfold get_memory_info, lookup, complete. rewrite Hr.
  destruct (getitem "MemTotal:" mems) eqn:Et;
    [|right; exists "MemTotal:"%string; simpl; auto].
  destruct (getitem "MemFree:" mems) eqn:Ef;
    [|right; exists "MemFree:"%string; simpl; auto].
  destruct (getitem "Cached:" mems) eqn:Ec;
    [|right; exists "Cached:"%string; simpl; auto].
  destruct (getitem "Buffers:" mems) eqn:Eb;
    [|right; exists "Buffers:"%string; simpl; auto 6].
  left. repeat split; congruence.
Qed.

Lemma name_error_inv (lines : list (list string)) (vm : svmem) :
  get_memory_info int (Some lines) vm = inl NameError ->
  exists mems, read_lines int [] lines = inr mems /\ complete mems.
Proof.
  intros H. destruct (read_lines int [] lines) as [e|mems] eqn:Hr.
  - exfalso. unfold get_memory_info in H. rewrite Hr in H.
    injection H as ->.
    destruct (read_lines_error _ _ _ Hr) as [[E _]|[E _]]; discriminate E.
  - exists mems. split; [reflexivity|].
    destruct (get_memory_info_read lines vm mems Hr)
      as [[Hc _]|(key & _ & _ & Hk)]; [exact Hc|congruence].
Qed.

(** X11.  [get_memory_info] never returns a value.  It raises
    [NameError], at the call of the undefined [ps_mem_info], exactly when
    the file is missing (the [psutil] branch) or every line of it was read
    and the four keys are there; on any other file it raises before. *)
Theorem get_memory_info_never_returns
    (meminfo : option (list (list string))) (vm : svmem) :
  (exists e, get_memory_info int meminfo vm = inl e) /\
  (get_memory_info int meminfo vm = inl NameError <->
   meminfo = None \/
   exists lines mems,
     meminfo = Some lines /\ read_lines int [] lines = inr mems /\
     complete mems).
Proof.
  split.
  - destruct (get_memory_info int meminfo vm) as [e|r]; [eauto|destruct r].
  - destruct meminfo as [lines|]; [|split; [left; reflexivity|reflexivity]].
    split.
    + intros H. right. exists lines.
      destruct (name_error_inv lines vm H) as (mems & Hr & Hc).
      exists mems. split; [reflexivity|]. split; assumption.
    + intros [H|(l & mems & E & Hr & Hc)]; [discriminate|].
      injection E as <-.
      destruct (get_memory_info_read lines vm mems Hr)
        as [[_ H]|(key & Hk & Hn & _)]; [exact H|].
      exfalso. destruct Hc as (H1 & H2 & H3 & H4). simpl in Hk.
      destruct Hk as [<-|[<-|[<-|[<-|[]]]]]; contradiction.
Qed.

(** X12.  Why [get_memory_info] fails on a file that is there.
    [IndexError]: some line has fewer than two fields.  [ValueError]: some
    second field is not a number.  [KeyError]: every line was read, and no
    line begins with the key named, one of [MemTotal:], [MemFree:],
    [Cached:], [Buffers:].  [NameError]: every line was read and the four
    keys are there. *)
Theorem get_memory_info_errors (lines : list (list string)) (vm : svmem)
    (e : provider_exn) :
  get_memory_info int (Some lines) vm = inl e ->
  match e with
  | IndexError => exists fields, In fields lines /\ (length fields < 2)%nat
  | ValueError =>
      exists f0 f1 rest, In (f0 :: f1 :: rest) lines /\ int f1 = None
  | KeyError key =>
      In key ["MemTotal:"; "MemFree:"; "Cached:"; "Buffers:"]%string /\
      (exists mems, read_lines int [] lines = inr mems) /\
      forall fields, In fields lines -> hd_error fields <> Some key
  | NameError =>
      exists mems, read_lines int [] lines = inr mems /\ complete mems
  end.
Proof.
  unfold get_memory_info, lookup.
  destruct (read_lines int [] lines) as [e1|mems] eqn:Hr.
  - intros [= <-].
    destruct (read_lines_error _ _ _ Hr) as [(-> & H)|(-> & H)]; exact H.
  - assert (K : forall key, getitem key mems = None ->
                forall fields, In fields lines -> hd_error fields <> Some key).
    { intros key Hn.
      exact (proj2 (read_lines_absent key [] mems lines Hr Hn)). }
    destruct (getitem "MemTotal:" mems) eqn:Et;
      [|intros [= <-]; split; [simpl; auto|split; [eauto|apply K, Et]]].
    destruct (getitem "MemFree:" mems) eqn:Ef;
      [|intros [= <-]; split; [simpl; auto|split; [eauto|apply K, Ef]]].
    destruct (getitem "Cached:" mems) eqn:Ec;
      [|intros [= <-]; split; [simpl; auto|split; [eauto|apply K, Ec]]].
    destruct (getitem "Buffers:" mems) eqn:Eb;
      [|intros [= <-]; split; [simpl; auto 6|split; [eauto|apply K, Eb]]].
    intros [= <-]. exists mems. split; [reflexivity|].
    unfold complete. repeat split; congruence.
Qed.

(** X13.  A file that is there is never replaced by [psutil]: when no
    line of it begins with one of the four keys, [get_memory_info] raises,
    whatever [psutil] would have answered, and raises before it comes to
    [ps_mem_info]. *)
Theorem get_memory_info_missing_key (lines : list (list string))
    (vm : svmem) (key : string) :
  In key ["MemTotal:"; "MemFree:"; "Cached:"; "Buffers:"]%string ->
  (forall fields, In fields lines -> hd_error fields <> Some key) ->
  exists e, get_memory_info int (Some lines) vm = inl e /\ e <> NameError.
Proof.
  intros Hk Hno.
  destruct (get_memory_info int (Some lines) vm) as [e|r] eqn:H;
    [|destruct r].
  exists e. split; [reflexivity|]. intros ->.
  destruct (name_error_inv lines vm H) as (mems & Hr & H1 & H2 & H3 & H4).
  pose proof (read_lines_other key [] mems lines Hr Hno) as Hg.
  simpl in Hg, Hk.
  destruct Hk as [<-|[<-|[<-|[<-|[]]]]]; contradiction.
Qed.

End MemInfoFacts.

(** ** Runs of the further properties *)

Ltac reach_from prev c :=
  apply (reach_call _ 2 c prev); [|reflexivity].

Lemma mid_iteration_reachable :
  reachable scenario_provider
            (Monitor true [InBody 0] (Some 0%nat) 10 [] [] 0).
Proof.
  reach_from (Monitor true [AtLoop 0] (Some 0%nat) 10 [] [] 0) WorkerStep.
  reach_from (Monitor true [Queued] (Some 0%nat) 10 [] [] 0) WorkerStep.
  exact session_open_reachable.
Qed.

Lemma closed_session_reachable :
  reachable scenario_provider (Monitor false [Done 70] None 10 [7] [70] 4).
Proof.
  apply (reach_call _ 2 (Finish 7)
           (run_worker scenario_provider 9
              (Monitor true [Queued] (Some 0%nat) 10 [] [] 0)));
    [|reflexivity].
  apply reachable_run_worker. exact session_open_reachable.
Qed.


(** X1, with a provider that only returns -5: the entry recorded is 0. *)
Lemma mem_stats_never_negative_run :
  finish (fun _ => -5) 2 7 (Monitor true [InBody 0] (Some 0%nat) 10 [] [] 0)
  = Ret 0 (Monitor false [Done 0] None 10 [7] [0] 1) /\
  0 <= 0.
Proof.
  split; [reflexivity|].
  apply (mem_stats_never_negative (fun _ => -5)
           (Monitor false [Done 0] None 10 [7] [0] 1)); [|left; reflexivity].
  reach_from (Monitor true [InBody 0] (Some 0%nat) 10 [] [] 0) (Finish 7).
  reach_from (Monitor true [AtLoop 0] (Some 0%nat) 10 [] [] 0) WorkerStep.
  reach_from (Monitor true [Queued] (Some 0%nat) 10 [] [] 0) WorkerStep.
  reach_from (init 10) Start.
  apply reach_init.
Defined.

(** X2, after a session that took four readings: the pool holds the
    task that has returned, and the worker leaves it alone. *)
Lemma worker_rests_when_idle_run :
  keep_measuring (Monitor false [Done 70] None 10 [7] [70] 4) = false /\
  run_worker scenario_provider 3 (Monitor false [Done 70] None 10 [7] [70] 4)
  = Monitor false [Done 70] None 10 [7] [70] 4.
Proof.
  split; [reflexivity|].
  exact (worker_rests_when_idle scenario_provider 3
           (Monitor false [Done 70] None 10 [7] [70] 4)
           closed_session_reachable eq_refl).
Defined.

(** X3, with the task past the loop test: one more reading, 10. *)
Lemma finish_reads_at_most_once_run :
  finish scenario_provider 2 7
         (Monitor true [InBody 0] (Some 0%nat) 10 [] [] 0)
  = Ret 10 (Monitor false [Done 10] None 10 [7] [10] 1) /\
  (0 <= 1 <= 1)%nat.
Proof.
  split; [reflexivity|].
  exact (finish_reads_at_most_once scenario_provider 2 7
           (Monitor true [InBody 0] (Some 0%nat) 10 [] [] 0) 10
           (Monitor false [Done 10] None 10 [7] [10] 1)
           mid_iteration_reachable eq_refl eq_refl).
Defined.

(** X4, in the middle of a session: the future is the task of index 0. *)
Lemma future_is_set_while_measuring_run :
  keep_measuring (Monitor true [InBody 0] (Some 0%nat) 10 [] [] 0) = true /\
  exists h t,
    monitor_thread (Monitor true [InBody 0] (Some 0%nat) 10 [] [] 0) = Some h /\
    nth_error (executor (Monitor true [InBody 0] (Some 0%nat) 10 [] [] 0)) h
    = Some t.
Proof.
  split; [reflexivity|].
  exact (proj1 (future_is_set_while_measuring scenario_provider 2 (Finish 7)
                  (Monitor true [InBody 0] (Some 0%nat) 10 [] [] 0)
                  (init 10) mid_iteration_reachable) eq_refl).
Defined.

(** X5, after two pre-phase handlers in a row. *)
Lemma one_unfinished_task_at_most_run :
  pre_fwd_exec scenario_provider true 2 1
               (Monitor true [Queued] (Some 0%nat) 10 [] [] 0)
  = Ret tt (Monitor true [Done 0; Queued] (Some 1%nat) 10 [1] [0] 0) /\
  (unfinished [Done 0; Queued] <= 1)%nat.
Proof.
  split; [reflexivity|].
  apply (one_unfinished_task_at_most scenario_provider
           (Monitor true [Done 0; Queued] (Some 1%nat) 10 [1] [0] 0)).
  apply (disc_call _ 2 (PreFwdExec true 1)
           (Monitor true [Queued] (Some 0%nat) 10 [] [] 0));
    [|discriminate|reflexivity].
  apply (disc_call _ 2 (PreFwdExec true 0) (init 10));
    [apply disc_init|discriminate|reflexivity].
Defined.

(** X6, the end-to-end scenario under the handlers. *)
Lemma handlers_record_phase_maximum_run :
  exists st1 st2,
    pre_fwd_exec scenario_provider true 2 0 (init 10) = Ret tt st1 /\
    post_fwd_exec scenario_provider true 2 7
                  (run_worker scenario_provider 9 st1) = Ret tt st2 /\
    time_stamps st2 = [7] /\ mem_stats st2 = [70].
Proof.
  destruct (handlers_record_phase_maximum scenario_provider 2 0 7 (init 10) 9
              (reach_init scenario_provider 10) eq_refl)
    as (st1 & m & st2 & H1 & _ & H2 & _).
  - simpl. lia.
  - exists st1, st2. split; [exact H1|]. split; [exact H2|].
    vm_compute in H1. injection H1 as <-.
    vm_compute in H2. injection H2 as <-.
    split; reflexivity.
Defined.

(** X7: the forward phase reads 10 and 50, the backward one 30 and 70. *)
Lemma iteration_records_two_entries_run :
  exists s1 s2 s3 s4,
    pre_fwd_exec scenario_provider true 4 0 (init 10) = Ret tt s1 /\
    post_fwd_exec scenario_provider true 4 1
                  (run_worker scenario_provider 5 s1) = Ret tt s2 /\
    pre_bwd_exec scenario_provider true 4 2 s2 = Ret tt s3 /\
    post_bwd_exec scenario_provider true 4 3
                  (run_worker scenario_provider 5 s3) = Ret tt s4 /\
    post_iter scenario_provider 4 4 s4 = Ret tt s4 /\
    time_stamps s4 = [1; 3] /\ mem_stats s4 = [50; 70].
Proof.
  destruct (iteration_records_two_entries scenario_provider 4 0 1 2 3 4
              (init 10) 5 5 (reach_init scenario_provider 10) eq_refl)
    as (s1 & s2 & s3 & s4 & m1 & m2 & H1 & H2 & H3 & H4 & H5 & _).
  - simpl. lia.
  - exists s1, s2, s3, s4.
    repeat (split; [assumption|]).
    vm_compute in H1. injection H1 as <-.
    vm_compute in H2. injection H2 as <-.
    vm_compute in H3. injection H3 as <-.
    vm_compute in H4. injection H4 as <-.
    split; reflexivity.
Defined.

(** X8: the first task has read 10 and 50 when [start] is called again;
    [finish] returns 0. *)
Lemma second_start_loses_the_session_run :
  exists st',
    start (init 10) = Ret tt (Monitor true [Queued] (Some 0%nat) 10 [] [] 0) /\
    start (run_worker scenario_provider 5
             (Monitor true [Queued] (Some 0%nat) 10 [] [] 0))
    = Ret tt (Monitor true [AtLoop 50; Queued] (Some 1%nat) 10 [] [] 2) /\
    finish scenario_provider 4 7
           (Monitor true [AtLoop 50; Queued] (Some 1%nat) 10 [] [] 2)
    = Ret 0 st' /\
    mem_stats st' = [0].
Proof.
  destruct (second_start_loses_the_session scenario_provider 4 7 (init 10)
              (Monitor true [Queued] (Some 0%nat) 10 [] [] 0)
              (Monitor true [AtLoop 50; Queued] (Some 1%nat) 10 [] [] 2)
              5 0 (reach_init scenario_provider 10) eq_refl eq_refl eq_refl)
    as (st' & Hf & _ & _ & Hm).
  - simpl. lia.
  - exists st'. repeat split; assumption.
Defined.

(** X9, on the example of the specification. *)
Lemma show_mem_stats_keeps_differences_run :
  nth 2 [0; 3; 5] 0 - nth 0 [0; 3; 5] 0
  = nth 2 [5; 8; 10] 0 - nth 0 [5; 8; 10] 0.
Proof.
  assert (H2 : (2 < 3)%nat) by lia. assert (H0 : (0 < 3)%nat) by lia.
  exact (proj1 (proj2 (proj2
    (show_mem_stats_keeps_differences
       (Monitor false [] None 10 [5; 8; 10] [200; 150; 300] 0)
       (Monitor false [] None 10 [0; 3; 5] [50; 0; 150] 0)
       2 0 eq_refl H2 H0 H2 H0)))).
Defined.

(** X10: [MemTotal:] on two lines, the second one counts. *)
Lemma meminfo_last_line_wins_run :
  exists mems,
    MemInfo.read_lines MemInfo.decimal []
      [["MemTotal:"; "100"; "kB"]; ["MemFree:"; "40"; "kB"];
       ["MemTotal:"; "200"; "kB"]]%string = inr mems /\
    MemInfo.getitem "MemTotal:" mems = Some 204800.
Proof.
  eexists. split; [reflexivity|].
  apply (meminfo_last_line_wins MemInfo.decimal
           [["MemTotal:"; "100"; "kB"]; ["MemFree:"; "40"; "kB"]]%string
           [] "MemTotal:" "200" ["kB"%string] 200);
    [reflexivity|reflexivity|intros fields []].
Defined.

(** X11: a complete file, and a missing one. *)
Lemma get_memory_info_never_returns_run :
  MemInfo.get_memory_info MemInfo.decimal
    (Some [["MemTotal:"; "100"; "kB"]; ["MemFree:"; "40"; "kB"];
           ["Cached:"; "50"; "kB"]; ["Buffers:"; "30"; "kB"]]%string)
    (MemInfo.Svmem 8 4 2 1 1)
  = inl MemInfo.NameError /\
  MemInfo.get_memory_info MemInfo.decimal None (MemInfo.Svmem 8 4 2 1 1)
  = inl MemInfo.NameError.
Proof.
  split.
  - apply (proj2 (get_memory_info_never_returns MemInfo.decimal
                    (Some [["MemTotal:"; "100"; "kB"]; ["MemFree:"; "40"; "kB"];
                           ["Cached:"; "50"; "kB"]; ["Buffers:"; "30"; "kB"]]%string)
                    (MemInfo.Svmem 8 4 2 1 1))).
    right. eexists. eexists. split; [reflexivity|]. split; [reflexivity|].
    repeat split; discriminate.
  - apply (proj2 (get_memory_info_never_returns MemInfo.decimal None
                    (MemInfo.Svmem 8 4 2 1 1))).
    left. reflexivity.
Defined.

(** X12: a line of one field. *)
Lemma get_memory_info_errors_run :
  MemInfo.get_memory_info MemInfo.decimal
    (Some [["MemTotal:"; "100"]; ["MemFree:"]]%string)
    (MemInfo.Svmem 0 0 0 0 0)
  = inl MemInfo.IndexError /\
  exists fields,
    In fields [["MemTotal:"; "100"]; ["MemFree:"]]%string /\
    (length fields < 2)%nat.
Proof.
  split; [reflexivity|].
  exact (get_memory_info_errors MemInfo.decimal
           [["MemTotal:"; "100"]; ["MemFree:"]]%string
           (MemInfo.Svmem 0 0 0 0 0) MemInfo.IndexError eq_refl).
Defined.

(** X13: a file without [Buffers:]; [psutil] is not asked. *)
Lemma get_memory_info_missing_key_run :
  MemInfo.get_memory_info MemInfo.decimal
    (Some [["MemTotal:"; "100"]; ["MemFree:"; "40"]; ["Cached:"; "50"]]%string)
    (MemInfo.Svmem 8 4 2 1 1)
  = inl (MemInfo.KeyError "Buffers:") /\
  exists e,
    MemInfo.get_memory_info MemInfo.decimal
      (Some [["MemTotal:"; "100"]; ["MemFree:"; "40"]; ["Cached:"; "50"]]%string)
      (MemInfo.Svmem 8 4 2 1 1) = inl e /\
    e <> MemInfo.NameError.
Proof.
  split; [reflexivity|].
  apply (get_memory_info_missing_key MemInfo.decimal
           [["MemTotal:"; "100"]; ["MemFree:"; "40"]; ["Cached:"; "50"]]%string
           (MemInfo.Svmem 8 4 2 1 1) "Buffers:").
  - simpl. auto.
  - intros fields [<-|[<-|[<-|[]]]]; discriminate.
Defined.
